(** * octodns.provider.googlecloud: a shallow embedding

    The Google Cloud DNS provider of octodns: the record codec
    ([_GoogleCloudRecordSetMaker] and the [_data_for_*] methods), the zone
    locator ([_get_gcloud_zone], [_create_gcloud_zone]), [populate] and
    [_apply] with its polling loop.

    Python strings are [string]s of bytes, dicts are [gmap]s keyed by
    strings, exceptions are the [Raise] branch of [result], and the calls
    made on the Google client are recorded, in order, in a list of
    [event]s. *)

From Stdlib Require Import ZArith Ascii String List Lia.
From stdpp Require Import base option list strings gmap.

Open Scope string_scope.
Open Scope list_scope.

(** ** Exceptions and results *)

Inductive exn :=
  | KeyError | IndexError | AttributeError | TypeError | ValueError
  | RuntimeError
  | Other (class : string).

Inductive result (A : Type) :=
  | Ok (a : A)
  | Raise (e : exn).
Arguments Ok {A} a.
Arguments Raise {A} e.

#[global] Instance result_ret : MRet result := fun A a => Ok a.

#[global] Instance result_bind : MBind result := fun A B k m =>
  match m with
  | Ok a => k a
  | Raise e => Raise e
  end.

(** [[f(x) for x in l]], stopping at the first exception. *)
Fixpoint for_each {A B} (f : A -> result B) (l : list A) : result (list B) :=
  match l with
  | [] => Ok []
  | x :: l' =>
      y ← f x;
      ys ← for_each f l';
      Ok (y :: ys)
  end.

Definition raises {A} (m : result A) : Prop :=
  match m with
  | Ok _ => False
  | Raise _ => True
  end.

(** ** Python string operations used by the provider *)

Definition chars (s : string) : list ascii := list_ascii_of_string s.
Definition text (l : list ascii) : string := string_of_list_ascii l.

Definition in_range (lo hi : nat) (c : ascii) : bool :=
  let n := nat_of_ascii c in (lo <=? n)%nat && (n <=? hi)%nat.

Definition is_lower (c : ascii) : bool := in_range 97 122 c.
Definition is_digit (c : ascii) : bool := in_range 48 57 c.

(** [str.upper()], on the ASCII letters. *)
Definition upper_char (c : ascii) : ascii :=
  if is_lower c then ascii_of_nat (nat_of_ascii c - 32) else c.

Definition upper (s : string) : string := text (map upper_char (chars s)).

(** [s.endswith(suffix)] *)
Definition endswith (s suffix : string) : bool :=
  let n := String.length s in
  let k := String.length suffix in
  (k <=? n)%nat && String.eqb (text (drop (n - k) (chars s))) suffix.

(** [s[:-k]] for [k > 0]: a stop before the start is clamped to the start. *)
Definition slice_to_minus (s : string) (k : nat) : string :=
  text (take (String.length s - k) (chars s)).

(** [needle in haystack] on strings: the substring test. *)
Fixpoint str_in (needle haystack : string) : bool :=
  String.prefix needle haystack ||
  match haystack with
  | EmptyString => false
  | String _ rest => str_in needle rest
  end.

(** ** shlex.split (posix mode, whitespace_split, no commenters)

    The token reader of Python's [shlex], as [shlex.split] configures it.
    [lex_state] is [self.state]: [' '], ['a'], a quote character, or the
    escape character together with [escapedstate]. *)

Inductive lex_state :=
  | InSpace
  | InWord
  | InQuote (q : ascii)
  | InEscape (escapedstate : lex_state).

Definition is_whitespace (c : ascii) : bool :=
  match nat_of_ascii c with
  | 32 | 9 | 13 | 10 => true
  | _ => false
  end%nat.

Definition is_quote (c : ascii) : bool :=
  match nat_of_ascii c with
  | 39 | 34 => true
  | _ => false
  end%nat.

Definition is_escape (c : ascii) : bool :=
  match nat_of_ascii c with
  | 92 => true
  | _ => false
  end%nat.

Definition backslash : ascii := ascii_of_nat 92.
Definition dquote : ascii := ascii_of_nat 34.

(** [emit]: the pending token is pushed when [self.token or quoted]. *)
Definition emit (token : list ascii) (quoted : bool) (out : list string)
  : list string :=
  match token, quoted with
  | [], false => out
  | _, _ => out ++ [text token]
  end.

Fixpoint lex (st : lex_state) (token : list ascii) (quoted : bool)
    (out : list string) (input : list ascii) : result (list string) :=
  match input with
  | [] =>
      match st with
      | InSpace => Ok out
      | InWord => Ok (emit token quoted out)
      | InQuote _ => Raise ValueError
      | InEscape _ => Raise ValueError
      end
  | c :: rest =>
      match st with
      | InSpace =>
          if is_whitespace c then lex InSpace [] false (emit token quoted out) rest
          else if is_escape c then lex (InEscape InWord) token quoted out rest
          else if is_quote c then lex (InQuote c) token quoted out rest
          else lex InWord [c] quoted out rest
      | InQuote q =>
          if Ascii.eqb c q then lex InWord token true out rest
          else if is_escape c && Ascii.eqb q dquote
               then lex (InEscape (InQuote q)) token true out rest
          else lex (InQuote q) (token ++ [c]) true out rest
      | InEscape back =>
          let token :=
            match back with
            | InQuote q =>
                if negb (Ascii.eqb c backslash) && negb (Ascii.eqb c q)
                then token ++ [backslash] else token
            | _ => token
            end in
          lex back (token ++ [c]) quoted out rest
      | InWord =>
          if is_whitespace c then lex InSpace [] false (emit token quoted out) rest
          else if is_quote c then lex (InQuote c) token quoted out rest
          else if is_escape c then lex (InEscape InWord) token quoted out rest
          else lex InWord (token ++ [c]) quoted out rest
      end
  end.

Definition shlex_split (s : string) : result (list string) :=
  lex InSpace [] false [] (chars s).


(** ** Data model *)

(** A dict value as the provider builds and reads it: a string, an
    integer (the ttl), a list of strings, one dict of named fields or a
    list of such dicts. *)
Inductive dval :=
  | DStr (s : string)
  | DInt (n : Z)
  | DList (l : list string)
  | DFields (f : gmap string string)
  | DFieldsList (l : list (gmap string string)).

(** One value of a record: a plain string, or an object whose [.data] is
    a dict of named fields (the structured values of MX, NAPTR, SRV). *)
Inductive rvalue :=
  | Raw (s : string)
  | Structured (d : gmap string string).

(** The attributes of an octodns Record that the provider reads.  An
    attribute the record does not have is [None]. *)
Record DnsRecord := {
  fqdn : string;
  _type : string;
  ttl : Z;
  data : gmap string dval;
  values : option (list rvalue);
  value : option rvalue
}.

(** google.cloud.dns.ResourceRecordSet *)
Record ResourceRecordSet := {
  rs_name : string;
  record_type : string;
  rs_ttl : Z;
  rrdatas : list string
}.

(** google.cloud.dns.ManagedZone *)
Record ManagedZone := {
  mz_name : string;
  dns_name : string
}.

(** [gcloud_zone.resource_record_set(name, type, ttl, rrdatas)] builds the
    record set object; it makes no call on the remote side. *)
Definition resource_record_set (gcloud_zone : ManagedZone)
    (name typ : string) (t : Z) (rr : list string) : ResourceRecordSet :=
  {| rs_name := name; record_type := typ; rs_ttl := t; rrdatas := rr |}.

(** Attribute and item access. *)
Definition attr {A} (o : option A) : result A :=
  match o with
  | Some a => Ok a
  | None => Raise AttributeError
  end.

Definition item {A} (d : gmap string A) (k : string) : result A :=
  match d !! k with
  | Some v => Ok v
  | None => Raise KeyError
  end.

Definition index {A} (l : list A) (i : nat) : result A :=
  match l !! i with
  | Some v => Ok v
  | None => Raise IndexError
  end.

(** An rrdata entry is a string; a value of another shape does not fit
    the record set. *)
Definition as_rrdata (v : rvalue) : result string :=
  match v with
  | Raw s => Ok s
  | Structured _ => Raise TypeError
  end.

(** [v.data] *)
Definition value_data (v : rvalue) : result (gmap string string) :=
  match v with
  | Structured d => Ok d
  | Raw _ => Raise AttributeError
  end.

Definition sp : string := " ".
Definition in_quotes (s : string) : string :=
  String dquote (s +:+ String dquote EmptyString).

(** ** _GoogleCloudRecordSetMaker: encoding *)

Definition _record_set_from_A (gcloud_zone : ManagedZone) (r : DnsRecord)
  : result ResourceRecordSet :=
  vs ← attr (values r);
  rr ← for_each as_rrdata vs;
  Ok (resource_record_set gcloud_zone (fqdn r) (_type r) (ttl r) rr).

Definition _record_set_from_AAAA := _record_set_from_A.

(** ['{flags} {tag} {value}'.format( **d)] *)
Definition format_CAA (d : gmap string string) : result string :=
  flags ← item d "flags";
  tag ← item d "tag";
  v ← item d "value";
  Ok (flags +:+ sp +:+ tag +:+ sp +:+ v).

Definition _record_set_from_CAA (gcloud_zone : ManagedZone) (r : DnsRecord)
  : result ResourceRecordSet :=
  dv ← item (data r) "value";
  s ← match dv with
      | DFields d => format_CAA d
      | _ => Raise TypeError
      end;
  Ok (resource_record_set gcloud_zone (fqdn r) (_type r) (ttl r) [s]).

Definition _record_set_from_CNAME (gcloud_zone : ManagedZone) (r : DnsRecord)
  : result ResourceRecordSet :=
  v ← attr (value r);
  s ← as_rrdata v;
  Ok (resource_record_set gcloud_zone (fqdn r) (_type r) (ttl r) [s]).

(** ['{preference} {exchange}'.format( **v.data)] *)
Definition format_MX (v : rvalue) : result string :=
  d ← value_data v;
  preference ← item d "preference";
  exchange ← item d "exchange";
  Ok (preference +:+ sp +:+ exchange).

Definition _record_set_from_MX (gcloud_zone : ManagedZone) (r : DnsRecord)
  : result ResourceRecordSet :=
  vs ← attr (values r);
  rr ← for_each format_MX vs;
  Ok (resource_record_set gcloud_zone (fqdn r) (_type r) (ttl r) rr).

Definition format_NAPTR (v : rvalue) : result string :=
  d ← value_data v;
  order ← item d "order";
  preference ← item d "preference";
  flags ← item d "flags";
  service ← item d "service";
  regexp ← item d "regexp";
  replacement ← item d "replacement";
  Ok (order +:+ sp +:+ preference +:+ sp +:+ in_quotes flags +:+ sp +:+
      in_quotes service +:+ sp +:+ in_quotes regexp +:+ sp +:+ replacement).

Definition _record_set_from_NAPTR (gcloud_zone : ManagedZone) (r : DnsRecord)
  : result ResourceRecordSet :=
  vs ← attr (values r);
  rr ← for_each format_NAPTR vs;
  Ok (resource_record_set gcloud_zone (fqdn r) (_type r) (ttl r) rr).

Definition _record_set_from_NS := _record_set_from_A.
Definition _record_set_from_PTR := _record_set_from_CNAME.
Definition _record_set_from_SPF := _record_set_from_A.

Definition format_SRV (v : rvalue) : result string :=
  d ← value_data v;
  priority ← item d "priority";
  weight ← item d "weight";
  port ← item d "port";
  target ← item d "target";
  Ok (priority +:+ sp +:+ weight +:+ sp +:+ port +:+ sp +:+ target).

Definition _record_set_from_SRV (gcloud_zone : ManagedZone) (r : DnsRecord)
  : result ResourceRecordSet :=
  vs ← attr (values r);
  rr ← for_each format_SRV vs;
  Ok (resource_record_set gcloud_zone (fqdn r) (_type r) (ttl r) rr).

Definition _record_set_from_TXT (gcloud_zone : ManagedZone) (r : DnsRecord)
  : result ResourceRecordSet :=
  val ← match data r !! "values" with
         | Some dv =>
             match dv with
             | DList l => Ok l
             | _ => Raise TypeError
             end
         | None =>
             dv ← item (data r) "value";
             match dv with
             | DStr s => Ok [s]
             | _ => Raise TypeError
             end
         end;
  Ok (resource_record_set gcloud_zone (fqdn r) (_type r) (ttl r) val).

(** The methods named [_record_set_from_<type>]. *)
Definition record_set_methods
  : list (string * (ManagedZone -> DnsRecord -> result ResourceRecordSet)) :=
  [ ("A", _record_set_from_A); ("AAAA", _record_set_from_AAAA);
    ("CAA", _record_set_from_CAA); ("CNAME", _record_set_from_CNAME);
    ("MX", _record_set_from_MX); ("NAPTR", _record_set_from_NAPTR);
    ("NS", _record_set_from_NS); ("PTR", _record_set_from_PTR);
    ("SPF", _record_set_from_SPF); ("SRV", _record_set_from_SRV);
    ("TXT", _record_set_from_TXT) ].

(** [getattr(self, prefix + typ)] *)
Fixpoint getattr {F} (methods : list (string * F)) (typ : string) : result F :=
  match methods with
  | [] => Raise AttributeError
  | (n, f) :: rest => if String.eqb n typ then Ok f else getattr rest typ
  end.

(** [_record_to_record_set]: the maker looks its method up when it is
    built, [get_record_set] calls it. *)
Definition _record_to_record_set (gcloud_zone : ManagedZone) (r : DnsRecord)
  : result ResourceRecordSet :=
  _record_set_func ← getattr record_set_methods (_type r);
  _record_set_func gcloud_zone r.

(** ** GoogleCloudProvider: decoding *)

Definition SUPPORTS : list string :=
  ["A"; "AAAA"; "CAA"; "CNAME"; "MX"; "NAPTR"; "NS"; "PTR"; "SPF"; "SRV";
   "TXT"].

Definition supported (typ : string) : bool :=
  existsb (String.eqb typ) SUPPORTS.

(** [[shlex.split(g) for g in gcloud_record.rrdatas]] *)
Definition split_all (rr : list string) : result (list (list string)) :=
  for_each shlex_split rr.

Definition _data_for_A (gcloud_record : ResourceRecordSet)
  : result (gmap string dval) :=
  Ok {[ "values" := DList (rrdatas gcloud_record) ]}.

Definition _data_for_AAAA := _data_for_A.

Definition fields_CAA (v : list string) : result (gmap string string) :=
  flags ← index v 0;
  tag ← index v 1;
  val ← index v 2;
  Ok (<["flags" := flags]> (<["tag" := tag]> {[ "value" := val ]})).

Definition _data_for_CAA (gcloud_record : ResourceRecordSet)
  : result (gmap string dval) :=
  vs ← split_all (rrdatas gcloud_record);
  ds ← for_each fields_CAA vs;
  Ok {[ "values" := DFieldsList ds ]}.

Definition _data_for_CNAME (gcloud_record : ResourceRecordSet)
  : result (gmap string dval) :=
  v ← index (rrdatas gcloud_record) 0;
  Ok {[ "value" := DStr v ]}.

Definition fields_MX (v : list string) : result (gmap string string) :=
  preference ← index v 0;
  exchange ← index v 1;
  Ok (<["preference" := preference]> {[ "exchange" := exchange ]}).

Definition _data_for_MX (gcloud_record : ResourceRecordSet)
  : result (gmap string dval) :=
  vs ← split_all (rrdatas gcloud_record);
  ds ← for_each fields_MX vs;
  Ok {[ "values" := DFieldsList ds ]}.

Definition fields_NAPTR (v : list string) : result (gmap string string) :=
  order ← index v 0;
  preference ← index v 1;
  flags ← index v 2;
  service ← index v 3;
  regexp ← index v 4;
  replacement ← index v 5;
  Ok (<["order" := order]> (<["preference" := preference]>
      (<["flags" := flags]> (<["service" := service]>
      (<["regexp" := regexp]> {[ "replacement" := replacement ]}))))).

Definition _data_for_NAPTR (gcloud_record : ResourceRecordSet)
  : result (gmap string dval) :=
  vs ← split_all (rrdatas gcloud_record);
  ds ← for_each fields_NAPTR vs;
  Ok {[ "values" := DFieldsList ds ]}.

Definition _data_for_NS := _data_for_A.
Definition _data_for_PTR := _data_for_CNAME.
Definition _data_for_SPF := _data_for_A.

Definition fields_SRV (v : list string) : result (gmap string string) :=
  priority ← index v 0;
  weight ← index v 1;
  port ← index v 2;
  target ← index v 3;
  Ok (<["priority" := priority]> (<["weight" := weight]>
      (<["port" := port]> {[ "target" := target ]}))).

Definition _data_for_SRV (gcloud_record : ResourceRecordSet)
  : result (gmap string dval) :=
  vs ← split_all (rrdatas gcloud_record);
  ds ← for_each fields_SRV vs;
  Ok {[ "values" := DFieldsList ds ]}.

Definition _data_for_TXT (gcloud_record : ResourceRecordSet)
  : result (gmap string dval) :=
  if (1 <? length (rrdatas gcloud_record))%nat
  then Ok {[ "values" := DList (rrdatas gcloud_record) ]}
  else
    v ← index (rrdatas gcloud_record) 0;
    Ok {[ "value" := DStr v ]}.

(** The methods named [_data_for_<type>]. *)
Definition data_methods
  : list (string * (ResourceRecordSet -> result (gmap string dval))) :=
  [ ("A", _data_for_A); ("AAAA", _data_for_AAAA); ("CAA", _data_for_CAA);
    ("CNAME", _data_for_CNAME); ("MX", _data_for_MX);
    ("NAPTR", _data_for_NAPTR); ("NS", _data_for_NS); ("PTR", _data_for_PTR);
    ("SPF", _data_for_SPF); ("SRV", _data_for_SRV); ("TXT", _data_for_TXT) ].

(** Decoding as [populate] does it: the method is chosen by the
    upper-cased record type. *)
Definition decode (gcloud_record : ResourceRecordSet)
  : result (gmap string dval) :=
  data_for ← getattr data_methods (upper (record_type gcloud_record));
  data_for gcloud_record.

(** ** The remote side *)

(** A paged listing: each page carries its items and, unless it is the
    last one, the continuation token that denotes the rest. *)
Inductive listing (A : Type) :=
  | LastPage (items : list A)
  | Page (items : list A) (next_page_token : string) (rest : listing A).
Arguments LastPage {A} items.
Arguments Page {A} items next_page_token rest.

Definition page_items {A} (p : listing A) : list A :=
  match p with
  | LastPage items => items
  | Page items _ _ => items
  end.

Fixpoint all_items {A} (p : listing A) : list A :=
  match p with
  | LastPage items => items
  | Page items _ rest => items ++ all_items rest
  end.

(** Truth value of a token in [if it.next_page_token:]. *)
Definition truthy (tok : string) : bool := negb (String.eqb tok EmptyString).

Inductive operation :=
  | add_record_set (rs : ResourceRecordSet)
  | delete_record_set (rs : ResourceRecordSet).

(** What the Google client answers: the zone listing, the record sets of
    each zone, the status a submitted change set reports after a given
    number of reloads, and the exceptions of the remote side: the one, if
    any, that answers the submission of a change set, and the one, if
    any, that the [n]-th reload raises. *)
Record remote := {
  zone_pages : listing ManagedZone;
  record_set_pages : ManagedZone -> listing ResourceRecordSet;
  status_after : nat -> string;
  create_raises : list operation -> option exn;
  reload_raises : nat -> option exn
}.

(** Modelled from the Google client (google.cloud.dns is not part of this
    repository): the iterator that [client.list_zones()] returns fetches
    the following pages of the remote listing itself while it is iterated
    and has no [next_page_token] left once it is exhausted, so the loop
    over it sees the zones of all pages as one last page. *)
Definition list_zones (remote_zones : listing ManagedZone)
  : listing ManagedZone :=
  LastPage (all_items remote_zones).

(** The calls that reach the remote side, and the sleeps between them. *)
Inductive event :=
  | ListZones (page_token : option string)
  | ZoneCreate (z : ManagedZone)
  | ListRecordSets (z : ManagedZone) (page_token : option string)
  | ChangesCreate (ops : list operation)
  | Sleep (seconds : Z)
  | Reload.

(** ** Zone locator *)

Definition dot : ascii := ascii_of_nat 46.
Definition dash : ascii := ascii_of_nat 45.

Definition dot_to_dash (c : ascii) : ascii :=
  if Ascii.eqb c dot then dash else c.

(** The characters kept by the substitution of [^a-z0-9-] by nothing. *)
Definition zone_char (c : ascii) : bool :=
  is_lower c || is_digit c || Ascii.eqb c dash.

(** The dns name with its last character dropped, dots turned into
    dashes and every character outside [a-z0-9-] removed. *)
Definition sanitized (dname : string) : list ascii :=
  List.filter zone_char (map dot_to_dash (chars (slice_to_minus dname 1))).

(** The zone name derived from the dns name, in [_create_gcloud_zone]. *)
Definition derive_zone_name (dname : string) : result string :=
  let zone_name := text (sanitized dname) in
  first ← index (chars zone_name) 0;
  if negb (is_lower first) then Ok ("a" +:+ zone_name) else Ok zone_name.

Definition _create_gcloud_zone (dname : string) (calls : list event)
  : result ManagedZone * list event :=
  match derive_zone_name dname with
  | Raise e => (Raise e, calls)
  | Ok zone_name =>
      let gcloud_zone := {| mz_name := zone_name; dns_name := dname |} in
      (Ok gcloud_zone, calls ++ [ZoneCreate gcloud_zone])
  end.

(** [_get_gcloud_zone(dns_name, page_token, create)]; [pages] is what
    [list_zones(page_token)] answers.  The call on the next page passes
    no [create], which then has its default, [False]. *)
Fixpoint _get_gcloud_zone (dname : string) (page_token : option string)
    (pages : listing ManagedZone) (create : bool) (calls : list event)
  : result (option ManagedZone) * list event :=
  let calls := calls ++ [ListZones page_token] in
  let not_found :=
    if create then
      match _create_gcloud_zone dname calls with
      | (Ok z, calls) => (Ok (Some z), calls)
      | (Raise e, calls) => (Raise e, calls)
      end
    else (Ok None, calls) in
  match List.find (fun z => String.eqb (dns_name z) dname) (page_items pages) with
  | Some gcloud_zone => (Ok (Some gcloud_zone), calls)
  | None =>
      match pages with
      | Page _ tok rest =>
          if truthy tok
          then _get_gcloud_zone dname (Some tok) rest false calls
          else not_found
      | LastPage _ => not_found
      end
  end.

(** [_get_gcloud_records]: every record set of the zone, page after
    page. *)
Fixpoint _get_gcloud_records (gcloud_zone : ManagedZone)
    (page_token : option string) (pages : listing ResourceRecordSet)
    (calls : list event) : list ResourceRecordSet * list event :=
  let calls := calls ++ [ListRecordSets gcloud_zone page_token] in
  match pages with
  | LastPage items => (items, calls)
  | Page items tok rest =>
      if truthy tok then
        let '(more, calls) :=
          _get_gcloud_records gcloud_zone (Some tok) rest calls in
        (items ++ more, calls)
      else (items, calls)
  end.

(** ** Zone populator *)

(** Modelled from the spec: octodns' zone and record classes
    (octodns/zone.py, octodns/record.py) are not among the sources.  A
    zone exposes its name and a container of records supporting add;
    a record made by [Record.new(zone, name, data)] is kept as the relative
    name and the data dict it was given. *)
Record ZoneRecord := {
  zr_name : string;
  zr_data : gmap string dval
}.

Record Zone := {
  zone_name : string;
  records : list ZoneRecord
}.

(** Modelled from the spec: what [populate] uses from outside this file.
    [Record.new] validates the data against the schema of the record type
    and [zone.add_record] refuses a record it must not hold (a duplicate);
    how they decide is not in the sources, so the exception each raises, if
    any, is given by [Record_new_raises] and [add_record_raises].
    [set_iteration] is the order in which Python iterates the set of
    record-set objects that [populate] collects: the objects are hashed by
    identity, so all are kept, in an order of the interpreter's choosing. *)
Record Library := {
  set_iteration : list ResourceRecordSet -> list ResourceRecordSet;
  set_iteration_perm : forall l, Permutation (set_iteration l) l;
  Record_new_raises : Zone -> string -> gmap string dval -> option exn;
  add_record_raises : Zone -> ZoneRecord -> option exn
}.

Definition Record_new (lib : Library) (zone : Zone) (name : string)
    (d : gmap string dval) : result ZoneRecord :=
  match Record_new_raises lib zone name d with
  | Some e => Raise e
  | None => Ok {| zr_name := name; zr_data := d |}
  end.

Definition add_record (lib : Library) (zone : Zone) (r : ZoneRecord)
  : result Zone :=
  match add_record_raises lib zone r with
  | Some e => Raise e
  | None => Ok {| zone_name := zone_name zone; records := records zone ++ [r] |}
  end.

(** The zone-relative name [populate] computes for a remote record. *)
Definition relative_name (zone : Zone) (record_name : string) : string :=
  if endswith record_name (zone_name zone)
  then slice_to_minus record_name (String.length (zone_name zone) + 1)
  else record_name.

(** The body of the second loop of [populate]. *)
Definition populate_record (lib : Library) (zone : Zone)
    (gcloud_record : ResourceRecordSet) : result Zone :=
  let record_name := relative_name zone (rs_name gcloud_record) in
  let typ := upper (record_type gcloud_record) in
  data_for ← getattr data_methods typ;
  d ← data_for gcloud_record;
  let d := <["type" := DStr typ]> d in
  let d := <["ttl" := DInt (rs_ttl gcloud_record)]> d in
  record ← Record_new lib zone record_name d;
  add_record lib zone record.

(** The zone is changed in place: what was added before an exception
    stays. *)
Fixpoint populate_records (lib : Library) (zone : Zone)
    (rs : list ResourceRecordSet) : result unit * Zone :=
  match rs with
  | [] => (Ok tt, zone)
  | gcloud_record :: rest =>
      match populate_record lib zone gcloud_record with
      | Ok zone' => populate_records lib zone' rest
      | Raise e => (Raise e, zone)
      end
  end.

(** [populate(zone)].  The record sets of supported types are collected in
    a set, and the second loop takes them in the order in which the set
    is iterated. *)
Definition populate (lib : Library) (rem : remote) (zone : Zone)
  : result unit * Zone * list event :=
  match _get_gcloud_zone (zone_name zone) None (zone_pages rem) false [] with
  | (Raise e, calls) => (Raise e, zone, calls)
  | (Ok None, calls) => (Ok tt, zone, calls)
  | (Ok (Some gcloud_zone), calls) =>
      let '(listed, calls) :=
        _get_gcloud_records gcloud_zone None
          (record_set_pages rem gcloud_zone) calls in
      let _records :=
        set_iteration lib
          (List.filter (fun r => supported (upper (record_type r))) listed) in
      (populate_records lib zone _records, calls)
  end.

(** ** Change applier *)

(** A change as [_apply] reads it: the name of its class and the
    attributes [record], [existing] and [new]. *)
Record Change := {
  class_name : string;
  record : option DnsRecord;
  existing : option DnsRecord;
  new : option DnsRecord
}.

(** Modelled from the spec: the three change kinds of octodns
    (octodns/record.py, not among the sources): Create(record),
    Delete(record) and Update(existing, new). *)
Definition Create (r : DnsRecord) : Change :=
  {| class_name := "Create"; record := Some r; existing := None;
     new := Some r |}.

Definition Delete (r : DnsRecord) : Change :=
  {| class_name := "Delete"; record := Some r; existing := Some r;
     new := None |}.


Record Plan := {
  desired : Zone;
  changes : list Change
}.

Definition encode (gcloud_zone : ManagedZone) (o : option DnsRecord)
  : result ResourceRecordSet :=
  r ← attr o;
  _record_to_record_set gcloud_zone r.

(** The body of the loop over [changes]; [ops] is the content of
    [gcloud_changes], which the body extends in place. *)
Definition apply_change (gcloud_zone : ManagedZone) (change : Change)
    (ops : list operation) : result unit * list operation :=
  if str_in (class_name change) "Create" then
    match encode gcloud_zone (record change) with
    | Ok rs => (Ok tt, ops ++ [add_record_set rs])
    | Raise e => (Raise e, ops)
    end
  else if String.eqb (class_name change) "Delete" then
    match encode gcloud_zone (record change) with
    | Ok rs => (Ok tt, ops ++ [delete_record_set rs])
    | Raise e => (Raise e, ops)
    end
  else if String.eqb (class_name change) "Update" then
    match encode gcloud_zone (existing change) with
    | Raise e => (Raise e, ops)
    | Ok rs_old =>
        let ops := ops ++ [delete_record_set rs_old] in
        match encode gcloud_zone (new change) with
        | Ok rs_new => (Ok tt, ops ++ [add_record_set rs_new])
        | Raise e => (Raise e, ops)
        end
    end
  else (Raise RuntimeError, ops).

Fixpoint build_changes (gcloud_zone : ManagedZone) (cs : list Change)
    (ops : list operation) : result unit * list operation :=
  match cs with
  | [] => (Ok tt, ops)
  | change :: rest =>
      match apply_change gcloud_zone change ops with
      | (Ok _, ops) => build_changes gcloud_zone rest ops
      | (Raise e, ops) => (Raise e, ops)
      end
  end.

(** ** Convergence poller *)

Inductive termination := Finished | StillWaiting.

(** The [while] loop of [_apply]: [i] is the delay, raised by
    [next_delay] ([if i < 30: i += 2]) after each reload; [reloads] counts
    the reloads done so far, [fuel] bounds the number of rounds looked
    at.  A reload that raises ends the loop with its exception. *)
Definition next_delay (i : Z) : Z := if (i <? 30)%Z then (i + 2)%Z else i.

Fixpoint poll (fuel : nat) (rem : remote) (i : Z) (reloads : nat)
  : result termination * list event :=
  if String.eqb (status_after rem reloads) "done" then (Ok Finished, [])
  else
    match fuel with
    | O => (Ok StillWaiting, [])
    | S fuel =>
        match reload_raises rem (S reloads) with
        | Some e => (Raise e, [Sleep i; Reload])
        | None =>
            let '(t, calls) := poll fuel rem (next_delay i) (S reloads) in
            (t, Sleep i :: Reload :: calls)
        end
    end.

(** [_apply(plan)].  [gcloud_changes.create()] of the Google client raises
    ValueError on a change set without additions and deletions before it
    sends anything; a change set that was sent may be refused by the
    remote side, whose exception [create()] then raises. *)
Definition _apply (fuel : nat) (rem : remote) (plan : Plan)
  : result termination * list event :=
  match _get_gcloud_zone (zone_name (desired plan)) None (zone_pages rem)
          true [] with
  | (Raise e, calls) => (Raise e, calls)
  | (Ok None, calls) => (Raise AttributeError, calls)
  | (Ok (Some gcloud_zone), calls) =>
      match build_changes gcloud_zone (changes plan) [] with
      | (Raise e, _) => (Raise e, calls)
      | (Ok _, []) => (Raise ValueError, calls)
      | (Ok _, ops) =>
          let calls := calls ++ [ChangesCreate ops] in
          match create_raises rem ops with
          | Some e => (Raise e, calls)
          | None =>
              let '(t, polled) := poll fuel rem 1 0 in
              (t, calls ++ polled)
          end
      end
  end.

(** ** Closed forms, predicates and sample inputs used by the properties *)

(** A library that iterates the set in the order of insertion and accepts
    every record. *)
Definition lenient : Library :=
  {| set_iteration := fun l => l;
     set_iteration_perm := fun l => Permutation_refl l;
     Record_new_raises := fun _ _ _ => None;
     add_record_raises := fun _ _ => None |}.

Definition record_type_of (r : ZoneRecord) : string :=
  match zr_data r !! "type" with
  | Some (DStr t) => t
  | _ => EmptyString
  end.

Definition same_name_and_type (r r' : ZoneRecord) : bool :=
  String.eqb (zr_name r) (zr_name r') &&
  String.eqb (record_type_of r) (record_type_of r').

(** A library that iterates the set backwards, has no record with a ttl
    below zero made, and refuses a second record of the same name and
    type. *)
Definition strict : Library :=
  {| set_iteration := fun l => rev l;
     set_iteration_perm := fun l => Permutation_sym (Permutation_rev l);
     Record_new_raises := fun _ _ d =>
       match d !! "ttl" with
       | Some (DInt n) =>
           if (n <? 0)%Z then Some (Other "ValidationError") else None
       | _ => Some (Other "ValidationError")
       end;
     add_record_raises := fun zone r =>
       if existsb (same_name_and_type r) (records zone)
       then Some (Other "DuplicateRecordException") else None |}.

(** The delay slept before the [k]-th reload, in closed form. *)
Definition delay (k : nat) : Z :=
  if (k <? 15)%nat then (2 * Z.of_nat k + 1)%Z else 31%Z.

Definition round (k : nat) : list event := [Sleep (delay k); Reload].

Definition sleeps (calls : list event) : list Z :=
  flat_map (fun e => match e with Sleep d => [d] | _ => [] end) calls.

(** A remote side whose change set stays pending for [n] reloads. *)
Definition pending_for (n : nat) : remote :=
  {| zone_pages := LastPage [];
     record_set_pages := fun _ => LastPage [];
     status_after := fun k => if (k <? n)%nat then "pending" else "done";
     create_raises := fun _ => None;
     reload_raises := fun _ => None |}.

Definition is_list_zones (e : event) : Prop :=
  match e with
  | ListZones _ => True
  | _ => False
  end.

Definition other_zone : ManagedZone :=
  {| mz_name := "example-org"; dns_name := "example.org." |}.

Definition empty_zone : Zone :=
  {| zone_name := "example.com."; records := [] |}.

Definition remote_without_zone : remote :=
  {| zone_pages := Page [other_zone] "page-2" (LastPage []);
     record_set_pages := fun _ => LastPage [];
     status_after := fun _ => "done";
     create_raises := fun _ => None;
     reload_raises := fun _ => None |}.

Definition example_zone : ManagedZone :=
  {| mz_name := "example-com"; dns_name := "example.com." |}.

Definition www_a : DnsRecord :=
  {| fqdn := "www.example.com."; _type := "A"; ttl := 300;
     data := {[ "values" := DList ["1.2.3.4"] ]};
     values := Some [Raw "1.2.3.4"]; value := None |}.

Definition www_a_new : DnsRecord :=
  {| fqdn := "www.example.com."; _type := "A"; ttl := 300;
     data := {[ "values" := DList ["5.6.7.8"] ]};
     values := Some [Raw "5.6.7.8"]; value := None |}.

(** A change whose class is named 'Creat': none of the three kinds. *)
Definition creat_change : Change :=
  {| class_name := "Creat"; record := Some www_a; existing := None;
     new := Some www_a |}.

Definition remote_with_zone : remote :=
  {| zone_pages := LastPage [example_zone];
     record_set_pages := fun _ => LastPage [];
     status_after := fun _ => "done";
     create_raises := fun _ => None;
     reload_raises := fun _ => None |}.

Definition txt_two : ResourceRecordSet :=
  {| rs_name := "example.com."; record_type := "TXT"; rs_ttl := 300;
     rrdatas := ["v=spf1 -all"; "hello world"] |}.

Definition txt_one : ResourceRecordSet :=
  {| rs_name := "example.com."; record_type := "TXT"; rs_ttl := 300;
     rrdatas := ["hello world"] |}.

Definition www_a_set : ResourceRecordSet :=
  {| rs_name := "www.example.com."; record_type := "a"; rs_ttl := 300;
     rrdatas := ["1.2.3.4"] |}.

Definition first_entry_types : list string := ["CNAME"; "PTR"; "TXT"].

Definition empty_cname : ResourceRecordSet :=
  {| rs_name := "www.example.com."; record_type := "CNAME"; rs_ttl := 300;
     rrdatas := [] |}.

Definition remote_with_empty_cname : remote :=
  {| zone_pages := LastPage [example_zone];
     record_set_pages := fun _ => LastPage [www_a_set; empty_cname];
     status_after := fun _ => "done";
     create_raises := fun _ => None;
     reload_raises := fun _ => None |}.

Definition caa_fields : gmap string string :=
  <["flags" := "0"]> (<["tag" := "issue"]> {[ "value" := "ca.example.net" ]}).

Definition caa_record : DnsRecord :=
  {| fqdn := "example.com."; _type := "CAA"; ttl := 3600;
     data := {[ "value" := DFields caa_fields ]};
     values := Some [Structured caa_fields];
     value := Some (Structured caa_fields) |}.

Definition caa_record_set : ResourceRecordSet :=
  resource_record_set example_zone "example.com." "CAA" 3600
    ["0 issue ca.example.net"].

Definition plain (c : ascii) : bool :=
  negb (is_whitespace c) && negb (is_quote c) && negb (is_escape c).

Definition plain_token (t : string) : Prop :=
  t <> EmptyString /\ List.Forall (fun c => plain c = true) (chars t).

Definition space : ascii := ascii_of_nat 32.

(** The characters of the tokens joined by single blanks. *)
Fixpoint joined (ts : list string) : list ascii :=
  match ts with
  | [] => []
  | [t] => chars t
  | t :: ts => chars t ++ space :: joined ts
  end.

Definition mx_value (pe : string * string) : gmap string string :=
  <["preference" := pe.1]> {[ "exchange" := pe.2 ]}.

Definition mx_rrdata (pe : string * string) : string :=
  pe.1 +:+ sp +:+ pe.2.

Definition plain_mx (pe : string * string) : Prop :=
  plain_token pe.1 /\ plain_token pe.2.

Definition srv_value (v : string * string * string * string)
  : gmap string string :=
  let '(priority, weight, port, target) := v in
  <["priority" := priority]> (<["weight" := weight]>
    (<["port" := port]> {[ "target" := target ]})).

Definition srv_rrdata (v : string * string * string * string) : string :=
  let '(priority, weight, port, target) := v in
  priority +:+ sp +:+ weight +:+ sp +:+ port +:+ sp +:+ target.

Definition srv_tokens (v : string * string * string * string) : list string :=
  let '(priority, weight, port, target) := v in
  [priority; weight; port; target].

Definition plain_srv (v : string * string * string * string) : Prop :=
  List.Forall plain_token (srv_tokens v).

Definition naptr_fields : gmap string string :=
  <["order" := "10"]> (<["preference" := "100"]> (<["flags" := "S"]>
    (<["service" := "SIP+D2U"]> (<["regexp" := "!^.*$!sip: info@example.com!"]>
      {[ "replacement" := "_sip._udp.example.com." ]})))).

Definition naptr_record : DnsRecord :=
  {| fqdn := "example.com."; _type := "NAPTR"; ttl := 600;
     data := {[ "values" := DFieldsList [naptr_fields] ]};
     values := Some [Structured naptr_fields]; value := None |}.

Definition caa_blank_fields : gmap string string :=
  <["flags" := "0"]> (<["tag" := "issue"]>
    {[ "value" := "ca.example.net; policy=ev" ]}).

Definition caa_blank_record : DnsRecord :=
  {| fqdn := "example.com."; _type := "CAA"; ttl := 3600;
     data := {[ "value" := DFields caa_blank_fields ]};
     values := Some [Structured caa_blank_fields];
     value := Some (Structured caa_blank_fields) |}.

(** ** Further predicates used by the properties *)

(** Every continuation token of the listing is a non-empty string. *)
Fixpoint tokens_truthy {A} (p : listing A) : bool :=
  match p with
  | LastPage _ => true
  | Page _ tok rest => truthy tok && tokens_truthy rest
  end.

(** The continuation tokens of the listing, page after page. *)
Fixpoint page_tokens {A} (p : listing A) : list string :=
  match p with
  | LastPage _ => []
  | Page _ tok rest => tok :: page_tokens rest
  end.


Definition is_read_call (e : event) : Prop :=
  match e with
  | ListZones _ | ListRecordSets _ _ => True
  | _ => False
  end.

Definition is_zone_create (e : event) : Prop :=
  match e with
  | ZoneCreate _ => True
  | _ => False
  end.

Definition is_submission (e : event) : Prop :=
  match e with
  | ChangesCreate _ | Sleep _ | Reload => True
  | _ => False
  end.

Definition matches (dname : string) (z : ManagedZone) : bool :=
  String.eqb (dns_name z) dname.

Definition two_page_zones : listing ManagedZone :=
  Page [other_zone] "page-2" (LastPage [example_zone]).


Definition is_list_record_sets (e : event) : Prop :=
  match e with
  | ListRecordSets _ _ => True
  | _ => False
  end.

(** The record [populate] adds for a record set that decoded to [d]. *)
Definition populated_record (zone : Zone) (gcloud_record : ResourceRecordSet)
    (d : gmap string dval) : ZoneRecord :=
  {| zr_name := relative_name zone (rs_name gcloud_record);
     zr_data := <["ttl" := DInt (rs_ttl gcloud_record)]>
                  (<["type" := DStr (upper (record_type gcloud_record))]> d) |}.

(** The data of a populated record names a supported type and a ttl. *)
Definition typed_record (zr : ZoneRecord) : Prop :=
  exists t n,
    zr_data zr !! "type" = Some (DStr t) /\ supported t = true /\
    zr_data zr !! "ttl" = Some (DInt n).

Definition mx_set : ResourceRecordSet :=
  {| rs_name := "example.com."; record_type := "MX"; rs_ttl := 3600;
     rrdatas := ["10 mail.example.com."] |}.

Definition soa_set : ResourceRecordSet :=
  {| rs_name := "example.com."; record_type := "SOA"; rs_ttl := 21600;
     rrdatas := ["ns.example.com. admin.example.com. 1 21600 3600 259200 300"] |}.

Definition two_page_records : listing ResourceRecordSet :=
  Page [soa_set; www_a_set] "next" (LastPage [mx_set]).

Definition remote_with_records : remote :=
  {| zone_pages := LastPage [example_zone];
     record_set_pages := fun _ => two_page_records;
     status_after := fun _ => "done";
     create_raises := fun _ => None;
     reload_raises := fun _ => None |}.

Definition supported_set (r : ResourceRecordSet) : bool :=
  supported (upper (record_type r)).

Definition decodes_to (gcloud_record : ResourceRecordSet)
    (d : gmap string dval) : Prop :=
  decode gcloud_record = Ok d.

Definition is_locating_call (e : event) : Prop :=
  match e with
  | ListZones _ | ZoneCreate _ => True
  | _ => False
  end.

(** A change whose class is named 'Rename': none of the three kinds. *)
Definition rename_change : Change :=
  {| class_name := "Rename"; record := Some www_a; existing := Some www_a;
     new := Some www_a_new |}.

Definition www_a_record_set : ResourceRecordSet :=
  resource_record_set example_zone "www.example.com." "A" 300 ["1.2.3.4"].

Definition remote_empty : remote :=
  {| zone_pages := LastPage [other_zone];
     record_set_pages := fun _ => LastPage [];
     status_after := fun k => if (k <? 2)%nat then "pending" else "done";
     create_raises := fun _ => None;
     reload_raises := fun _ => None |}.

Definition soa_record : DnsRecord :=
  {| fqdn := "example.com."; _type := "SOA"; ttl := 21600;
     data := {[ "value" := DStr "ns.example.com." ]};
     values := None; value := Some (Raw "ns.example.com.") |}.

Definition many_valued_types : list string :=
  ["A"; "AAAA"; "NS"; "SPF"; "MX"; "NAPTR"; "SRV"].

Definition one_valued_types : list string := ["CAA"; "CNAME"; "PTR"].

Definition mx_record : DnsRecord :=
  {| fqdn := "example.com."; _type := "MX"; ttl := 3600;
     data := {[ "values" :=
                  DFieldsList [ <["preference" := "10"]>
                                  {[ "exchange" := "mail.example.com." ]};
                                <["preference" := "20"]>
                                  {[ "exchange" := "backup.example.com." ]} ] ]};
     values := Some [ Structured (<["preference" := "10"]>
                                    {[ "exchange" := "mail.example.com." ]});
                      Structured (<["preference" := "20"]>
                                    {[ "exchange" := "backup.example.com." ]}) ];
     value := None |}.

(** A character that may stand between double quotes as it is. *)
Definition quotable (c : ascii) : bool :=
  negb (Ascii.eqb c dquote) && negb (is_escape c).

Definition quotable_text (t : string) : Prop :=
  List.Forall (fun c => quotable c = true) (chars t).

(** A field as the encoders write it: bare, or between double quotes. *)
Inductive piece :=
  | Bare (t : string)
  | Quoted (t : string).

Definition piece_text (p : piece) : string :=
  match p with
  | Bare t => t
  | Quoted t => t
  end.

Definition piece_ok (p : piece) : Prop :=
  match p with
  | Bare t => plain_token t
  | Quoted t => quotable_text t
  end.

Definition piece_chars (p : piece) : list ascii :=
  match p with
  | Bare t => chars t
  | Quoted t => dquote :: chars t ++ [dquote]
  end.

(** The characters of the pieces joined by single blanks. *)
Fixpoint rendered (ps : list piece) : list ascii :=
  match ps with
  | [] => []
  | [p] => piece_chars p
  | p :: ps => piece_chars p ++ space :: rendered ps
  end.

(** The six fields of a NAPTR value. *)
Record naptr_value := {
  nv_order : string;
  nv_preference : string;
  nv_flags : string;
  nv_service : string;
  nv_regexp : string;
  nv_replacement : string
}.

Definition naptr_dict (v : naptr_value) : gmap string string :=
  <["order" := nv_order v]> (<["preference" := nv_preference v]>
    (<["flags" := nv_flags v]> (<["service" := nv_service v]>
      (<["regexp" := nv_regexp v]>
        {[ "replacement" := nv_replacement v ]})))).

Definition naptr_pieces (v : naptr_value) : list piece :=
  [ Bare (nv_order v); Bare (nv_preference v); Quoted (nv_flags v);
    Quoted (nv_service v); Quoted (nv_regexp v); Bare (nv_replacement v) ].

Definition naptr_rrdata (v : naptr_value) : string :=
  nv_order v +:+ sp +:+ nv_preference v +:+ sp +:+ in_quotes (nv_flags v)
  +:+ sp +:+ in_quotes (nv_service v) +:+ sp +:+ in_quotes (nv_regexp v)
  +:+ sp +:+ nv_replacement v.

Definition naptr_ok (v : naptr_value) : Prop :=
  List.Forall piece_ok (naptr_pieces v).

Definition sip_naptr : naptr_value :=
  {| nv_order := "10"; nv_preference := "100"; nv_flags := "S";
     nv_service := "SIP+D2U"; nv_regexp := "!^.*$!sip: info@example.com!";
     nv_replacement := "_sip._udp.example.com." |}.

Definition sip_naptr_record : DnsRecord :=
  {| fqdn := "example.com."; _type := "NAPTR"; ttl := 600;
     data := {[ "values" := DFieldsList [naptr_dict sip_naptr] ]};
     values := Some [Structured (naptr_dict sip_naptr)]; value := None |}.

Definition cname_record : DnsRecord :=
  {| fqdn := "www.example.com."; _type := "CNAME"; ttl := 300;
     data := {[ "value" := DStr "example.com." ]};
     values := None; value := Some (Raw "example.com.") |}.

Definition srv_record : DnsRecord :=
  {| fqdn := "_sip._tcp.example.com."; _type := "SRV"; ttl := 600;
     data := {[ "values" :=
                  DFieldsList [srv_value ("10", "20", "5060",
                                          "sip.example.com.")] ]};
     values := Some [Structured (srv_value ("10", "20", "5060",
                                            "sip.example.com."))];
     value := None |}.

(** The rrdata entry splits into at least [n] tokens. *)
Definition splits_into (n : nat) (g : string) : Prop :=
  exists ts, shlex_split g = Ok ts /\ (n <= length ts)%nat.

Definition txt_record (d : gmap string dval) : DnsRecord :=
  {| fqdn := "example.com."; _type := "TXT"; ttl := 300; data := d;
     values := None; value := None |}.

Definition caa_value (flags tag v : string) : gmap string string :=
  <["flags" := flags]> (<["tag" := tag]> {[ "value" := v ]}).

(** The zone with further records added. *)
Definition zone_with (zone : Zone) (added : list ZoneRecord) : Zone :=
  {| zone_name := zone_name zone; records := records zone ++ added |}.





(** Record.new and add_record raise for none of the records, taken in
    turn: each is made and added with the records before it in the zone. *)
Definition accepts (lib : Library) (zone : Zone) (expected : list ZoneRecord)
  : Prop :=
  forall k r,
    expected !! k = Some r ->
    Record_new_raises lib (zone_with zone (take k expected))
      (zr_name r) (zr_data r) = None /\
    add_record_raises lib (zone_with zone (take k expected)) r = None.

(** How many zones the calls create. *)
Definition zone_creations (calls : list event) : nat :=
  length (List.filter
            (fun e => match e with ZoneCreate _ => true | _ => false end)
            calls).

(** A remote side that refuses every change set. *)
Definition remote_refusing : remote :=
  {| zone_pages := LastPage [example_zone];
     record_set_pages := fun _ => LastPage [];
     status_after := fun _ => "pending";
     create_raises := fun _ => Some (Other "BadRequest");
     reload_raises := fun _ => None |}.

(** A remote side whose second reload fails. *)
Definition remote_failing_reload : remote :=
  {| zone_pages := LastPage [example_zone];
     record_set_pages := fun _ => LastPage [];
     status_after := fun _ => "pending";
     create_raises := fun _ => None;
     reload_raises := fun n =>
       if (n =? 2)%nat then Some (Other "ServiceUnavailable") else None |}.


(** A remote zone listing of two pages without 'example.com.'. *)
Definition listing_without_zone : listing ManagedZone :=
  Page [other_zone] "page-2" (LastPage []).

(** The remote side of the Google client over the two pages without
    'example.com.'. *)
Definition remote_iterated : remote :=
  {| zone_pages := list_zones listing_without_zone;
     record_set_pages := fun _ => LastPage [];
     status_after := fun _ => "done";
     create_raises := fun _ => None;
     reload_raises := fun _ => None |}.

(** * Properties *)

(** ** Convergence poller *)

Lemma next_delay_delay k : next_delay (delay k) = delay (S k).
Proof.
  unfold next_delay, delay.
  destruct (Nat.ltb_spec k 15) as [Hk|Hk].
  - destruct (Z.ltb_spec (2 * Z.of_nat k + 1) 30) as [Hi|Hi]; [|lia].
    destruct (Nat.ltb_spec (S k) 15); lia.
  - destruct (Nat.ltb_spec (S k) 15); [lia|]. reflexivity.
Qed.

Lemma delay_bounds k : (1 <= delay k <= 31)%Z.
Proof. unfold delay. destruct (Nat.ltb_spec k 15); lia. Qed.

(** Polling from the [k]-th round on, with [n] more rounds to wait. *)
Lemma poll_from rem n : forall fuel k,
  (forall j, (j < n)%nat -> status_after rem (k + j) <> "done") ->
  status_after rem (k + n) = "done" ->
  (forall j, (j < n)%nat -> reload_raises rem (S (k + j)) = None) ->
  (n <= fuel)%nat ->
  poll fuel rem (delay k) k
  = (Ok Finished, flat_map round (seq k n)).
Proof.
  induction n as [|n IH]; intros fuel k Hwait Hdone Hload Hfuel.
  - rewrite Nat.add_0_r in Hdone.
    destruct fuel; simpl; rewrite Hdone; reflexivity.
  - destruct fuel as [|fuel]; [lia|].
    assert (Hk : String.eqb (status_after rem k) "done" = false).
    { apply String.eqb_neq. specialize (Hwait 0%nat).
      rewrite Nat.add_0_r in Hwait. apply Hwait. lia. }
    assert (Hr : reload_raises rem (S k) = None).
    { specialize (Hload 0%nat). rewrite Nat.add_0_r in Hload.
      apply Hload. lia. }
    cbn [poll]. rewrite Hk, Hr.
    rewrite next_delay_delay.
    rewrite (IH fuel (S k)).
    + reflexivity.
    + intros j Hj. replace (S k + j)%nat with (k + S j)%nat by lia.
      apply Hwait. lia.
    + replace (S k + n)%nat with (k + S n)%nat by lia. exact Hdone.
    + intros j Hj. replace (S k + j)%nat with (k + S j)%nat by lia.
      apply Hload. lia.
    + lia.
Qed.

(** As long as the status is not 'done' and the reloads answer, the loop
    goes on with the same schedule. *)
Lemma poll_waiting rem : forall fuel k,
  (forall j, (j <= fuel)%nat -> status_after rem (k + j) <> "done") ->
  (forall j, (j < fuel)%nat -> reload_raises rem (S (k + j)) = None) ->
  poll fuel rem (delay k) k
  = (Ok StillWaiting, flat_map round (seq k fuel)).
Proof.
  induction fuel as [|fuel IH]; intros k Hwait Hload;
    assert (Hk : String.eqb (status_after rem k) "done" = false)
      by (apply String.eqb_neq; specialize (Hwait 0%nat);
          rewrite Nat.add_0_r in Hwait; apply Hwait; lia);
    cbn [poll]; rewrite Hk; [reflexivity|].
  assert (Hr : reload_raises rem (S k) = None).
  { specialize (Hload 0%nat). rewrite Nat.add_0_r in Hload.
    apply Hload. lia. }
  rewrite Hr, next_delay_delay, (IH (S k)); [reflexivity| |].
  - intros j Hj. replace (S k + j)%nat with (k + S j)%nat by lia.
    apply Hwait. lia.
  - intros j Hj. replace (S k + j)%nat with (k + S j)%nat by lia.
    apply Hload. lia.
Qed.

Lemma sleeps_rounds n : forall k,
  sleeps (flat_map round (seq k n)) = map delay (seq k n).
Proof.
  induction n as [|n IH]; intros k; [reflexivity|].
  cbn [seq flat_map map]. unfold sleeps in *. rewrite flat_map_app.
  rewrite IH. reflexivity.
Qed.

(** In every run, one ended by an exception of a reload included, the
    rounds done are rounds of the schedule. *)
Lemma poll_rounds rem : forall fuel k, exists m,
  (m <= fuel)%nat /\
  snd (poll fuel rem (delay k) k) = flat_map round (seq k m).
Proof.
  induction fuel as [|fuel IH]; intros k; cbn [poll];
    destruct (String.eqb (status_after rem k) "done");
    try (exists 0%nat; split; [lia | reflexivity]).
  destruct (reload_raises rem (S k)) as [e|].
  - exists 1%nat. split; [lia | reflexivity].
  - rewrite next_delay_delay. destruct (IH (S k)) as [m [Hm E]].
    destruct (poll fuel rem (delay (S k)) (S k)) as [t calls].
    cbn [snd] in *. subst calls. exists (S m). split; [lia | reflexivity].
Qed.

(** C2, as the code has it: while the status is not 'done' the loop
    sleeps, reloads, and raises the delay by 2 as long as the delay is
    below 30.  For every run of [n] non-terminal statuses followed by
    'done', with reloads that answer, the loop returns after [n] rounds
    and the delays slept are 1, 3, ..., 29, 31, 31, ...: the [k]-th is
    [2k+1] for [k < 15] and 31 from then on, so no delay exceeds 31.  In
    every other run too, one that a reload ends with an exception
    included, the delays slept are the first ones of this sequence. *)
Theorem poll_delay_schedule (rem : remote) (n fuel : nat) :
  (forall j, (j < n)%nat -> status_after rem j <> "done") ->
  status_after rem n = "done" ->
  (forall j, (1 <= j <= n)%nat -> reload_raises rem j = None) ->
  (n <= fuel)%nat ->
  poll fuel rem 1 0 = (Ok Finished, flat_map round (seq 0 n)) /\
  sleeps (snd (poll fuel rem 1 0)) = map delay (seq 0 n) /\
  Forall (fun d => (1 <= d <= 31)%Z) (sleeps (snd (poll fuel rem 1 0))) /\
  map delay (seq 0 17)
  = [1; 3; 5; 7; 9; 11; 13; 15; 17; 19; 21; 23; 25; 27; 29; 31; 31]%Z /\
  (forall rem' fuel', exists m,
     (m <= fuel')%nat /\
     sleeps (snd (poll fuel' rem' 1 0)) = map delay (seq 0 m)).
Proof.
  intros Hwait Hdone Hload Hfuel.
  assert (Hpoll : poll fuel rem 1 0 = (Ok Finished, flat_map round (seq 0 n))).
  { change 1%Z with (delay 0). apply poll_from; auto.
    intros j Hj. apply Hload. cbn [Nat.add]. lia. }
  rewrite Hpoll. cbn [snd]. rewrite sleeps_rounds.
  split; [reflexivity|]. split; [reflexivity|]. split; [|split].
  - apply List.Forall_forall. intros d Hd. apply in_map_iff in Hd.
    destruct Hd as [k [<- _]]. apply delay_bounds.
  - reflexivity.
  - intros rem' fuel'. destruct (poll_rounds rem' fuel' 0) as [m [Hm E]].
    exists m. split; [exact Hm|].
    change (delay 0) with 1%Z in E. rewrite E. apply sleeps_rounds.
Qed.

Lemma poll_delay_schedule_witness :
  sleeps (snd (poll 20 (pending_for 17) 1 0)) = map delay (seq 0 17).
Proof.
  apply (poll_delay_schedule (pending_for 17) 17 20).
  - intros j Hj. simpl. destruct (Nat.ltb_spec j 17); [discriminate | lia].
  - reflexivity.
  - reflexivity.
  - lia.
Defined.

(** C2, as stated, fails: when the status stays non-terminal for 16
    reloads, the sixteenth delay is 31, which exceeds 29. *)
Lemma poll_delay_exceeds_29 :
  sleeps (snd (poll 16 (pending_for 16) 1 0))
  = [1; 3; 5; 7; 9; 11; 13; 15; 17; 19; 21; 23; 25; 27; 29; 31]%Z /\
  ~ Forall (fun d => (d <= 29)%Z) (sleeps (snd (poll 16 (pending_for 16) 1 0))).
Proof.
  split; [reflexivity|].
  intros H. rewrite List.Forall_forall in H.
  specialize (H 31%Z). vm_compute in H. apply H; [|reflexivity].
  do 15 right. left. reflexivity.
Qed.

(** ** Zone locator *)

Lemma find_no_match (dname : string) (zs : list ManagedZone) :
  (forall z, In z zs -> dns_name z <> dname) ->
  List.find (fun z => String.eqb (dns_name z) dname) zs = None.
Proof.
  induction zs as [|z zs IH]; intros H; [reflexivity|].
  simpl. destruct (String.eqb_spec (dns_name z) dname) as [E|_].
  - exfalso. apply (H z); [left; reflexivity | exact E].
  - apply IH. intros z' Hz'. apply H. right. exact Hz'.
Qed.

Lemma no_match_page {A} (P : A -> Prop) (p : listing A) :
  (forall z, In z (all_items p) -> P z) ->
  forall z, In z (page_items p) -> P z.
Proof.
  destruct p as [items | items tok rest]; simpl; intros H z Hz; apply H;
    [exact Hz | apply in_or_app; left; exact Hz].
Qed.

(** Without [create], a name that no listed zone has is answered by
    [None], and only listing calls are made. *)
Lemma locate_absent (dname : string) (pages : listing ManagedZone) :
  (forall z, In z (all_items pages) -> dns_name z <> dname) ->
  forall tok calls, exists more,
    _get_gcloud_zone dname tok pages false calls = (Ok None, calls ++ more) /\
    List.Forall is_list_zones more.
Proof.
  induction pages as [items | items next rest IH]; intros Hno tok calls.
  - exists [ListZones tok]. cbn [_get_gcloud_zone page_items].
    rewrite (find_no_match dname items Hno).
    split; [reflexivity | repeat constructor].
  - cbn [_get_gcloud_zone page_items].
    rewrite (find_no_match dname items
               (no_match_page _ (Page items next rest) Hno)).
    destruct (truthy next).
    + destruct (IH (fun z Hz => Hno z (in_or_app _ _ _ (or_intror Hz)))
                  (Some next) (calls ++ [ListZones tok])) as [more [E Hm]].
      exists (ListZones tok :: more). rewrite E.
      rewrite <- app_assoc. split; [reflexivity|].
      constructor; [exact I | exact Hm].
    + exists [ListZones tok]. split; [reflexivity | repeat constructor].
Qed.

(** Once a second page has been asked for, [create] is no longer in
    force: a name found on no page is answered by [None] whatever
    [create] was. *)
Lemma locate_absent_after_first_page (dname : string)
    (items : list ManagedZone) (next : string) (rest : listing ManagedZone)
    (create : bool) :
  (forall z, In z (all_items (Page items next rest)) -> dns_name z <> dname) ->
  truthy next = true ->
  forall tok calls, exists more,
    _get_gcloud_zone dname tok (Page items next rest) create calls
    = (Ok None, calls ++ more) /\
    List.Forall is_list_zones more.
Proof.
  intros Hno Hnext tok calls. cbn [_get_gcloud_zone page_items].
  rewrite (find_no_match dname items
             (no_match_page _ (Page items next rest) Hno)).
  rewrite Hnext.
  destruct (locate_absent dname rest
              (fun z Hz => Hno z (in_or_app _ _ _ (or_intror Hz)))
              (Some next) (calls ++ [ListZones tok])) as [more [E Hm]].
  exists (ListZones tok :: more). rewrite E, <- app_assoc.
  split; [reflexivity | constructor; [exact I | exact Hm]].
Qed.


(** The first listed zone with the name is returned, on any page. *)
Lemma locate_first_match (dname : string) (pages : listing ManagedZone) :
  forall tok create calls z calls',
    _get_gcloud_zone dname tok pages create calls = (Ok (Some z), calls') ->
    dns_name z = dname.
Proof.
  induction pages as [items | items next rest IH];
    intros tok create calls z calls'; cbn [_get_gcloud_zone page_items];
    destruct (List.find _ items) as [z0|] eqn:Hf.
  - intros [= <- _]. apply find_some in Hf. destruct Hf as [_ Hf].
    apply String.eqb_eq. exact Hf.
  - destruct create; [|discriminate].
    unfold _create_gcloud_zone. destruct (derive_zone_name dname);
      [intros [= <- _]; reflexivity | discriminate].
  - intros [= <- _]. apply find_some in Hf. destruct Hf as [_ Hf].
    apply String.eqb_eq. exact Hf.
  - destruct (truthy next); [apply IH|].
    destruct create; [|discriminate].
    unfold _create_gcloud_zone. destruct (derive_zone_name dname);
      [intros [= <- _]; reflexivity | discriminate].
Qed.




(** Apply over the same two pages: the zone is created, then the change
    set is submitted. *)
Example apply_over_pages_creates_zone :
  _apply 5 remote_iterated
    {| desired := empty_zone; changes := [Create www_a] |}
  = (Ok Finished,
     [ListZones None; ZoneCreate example_zone;
      ChangesCreate [add_record_set www_a_record_set]]).
Proof. reflexivity. Qed.

(** A listing that stops after its first page and hands back a token, as
    the loop of [_get_gcloud_zone] provides for, is followed with the
    token, but without [create]: the zone 'example.com.' is on neither
    page, and after the second page was listed the locator returns [None]
    and no zone is created. *)
Example locate_by_token_drops_create :
  _get_gcloud_zone "example.com." None
    (Page [other_zone] "page-2" (LastPage [])) true []
  = (Ok None, [ListZones None; ListZones (Some "page-2")]).
Proof. reflexivity. Qed.

(** ** Zone name synthesis *)

Lemma chars_text (l : list ascii) : chars (text l) = l.
Proof. apply list_ascii_of_string_of_list_ascii. Qed.

Lemma text_chars (s : string) : text (chars s) = s.
Proof. apply string_of_list_ascii_of_string. Qed.

(** Whenever something is left of the dns name, the derived name is the
    sanitized one, with an 'a' in front unless it starts with a letter,
    and so starts with a lowercase letter. *)
Lemma derive_zone_name_nonempty (dname : string) (c : ascii)
    (rest : list ascii) :
  sanitized dname = c :: rest ->
  derive_zone_name dname
  = Ok (if is_lower c then text (c :: rest)
        else "a" +:+ text (c :: rest)) /\
  exists c' rest', derive_zone_name dname = Ok (String c' rest') /\
                   is_lower c' = true.
Proof.
  intros Hs. unfold derive_zone_name.
  rewrite chars_text, Hs. cbn [index lookup list_lookup mbind result_bind].
  destruct (is_lower c) eqn:Hc; cbn [negb]; (split; [reflexivity|]).
  - exists c, (text rest). split; [reflexivity | exact Hc].
  - exists (ascii_of_nat 97), (text (c :: rest)).
    split; reflexivity.
Qed.

Lemma derive_zone_name_empty (dname : string) :
  sanitized dname = [] -> derive_zone_name dname = Raise IndexError.
Proof.
  intros Hs. unfold derive_zone_name.
  rewrite chars_text, Hs. reflexivity.
Qed.

(** C8 at the root zone: for the dns name '.' nothing is left after the
    trailing dot is dropped, [zone_name[0]] raises IndexError, and no zone
    is created. *)
Theorem create_zone_root_raises :
  sanitized "." = [] /\
  derive_zone_name "." = Raise IndexError /\
  _create_gcloud_zone "." [] = (Raise IndexError, []) /\
  _get_gcloud_zone "." None (LastPage []) true []
  = (Raise IndexError, [ListZones None]).
Proof. repeat split. Qed.

Example derive_zone_name_example_com :
  derive_zone_name "example.com." = Ok "example-com".
Proof. reflexivity. Qed.

Example derive_zone_name_leading_digit :
  derive_zone_name "0.0.127.in-addr.arpa." = Ok "a0-0-127-in-addr-arpa".
Proof. reflexivity. Qed.

(** ** Populate on a zone that does not exist remotely *)

(** C9: when no listed remote zone has the zone's name, [populate]
    returns normally, the zone is what it was, and the only calls made
    are zone listings: nothing is created.  This does not depend on what
    Record.new, add_record or the iteration of the set would do. *)
Theorem populate_absent_zone_unchanged (lib : Library) (rem : remote)
    (zone : Zone) :
  (forall z, In z (all_items (zone_pages rem)) ->
             dns_name z <> zone_name zone) ->
  exists calls,
    populate lib rem zone = (Ok tt, zone, calls) /\
    List.Forall is_list_zones calls.
Proof.
  intros Hno.
  destruct (locate_absent (zone_name zone) (zone_pages rem) Hno None [])
    as [more [E Hm]].
  exists more. unfold populate. rewrite E. split; [reflexivity | exact Hm].
Qed.

Lemma populate_absent_zone_unchanged_witness :
  exists calls,
    populate strict remote_without_zone empty_zone
    = (Ok tt, empty_zone, calls) /\
    List.Forall is_list_zones calls.
Proof.
  apply (populate_absent_zone_unchanged strict remote_without_zone empty_zone).
  simpl. intros z [<- | []]. discriminate.
Defined.

(** ** Change applier *)

(** A class name that is neither contained in 'Create' nor equal to
    'Delete' or 'Update' is rejected, and the change set is not touched. *)
Lemma apply_change_unknown (gcloud_zone : ManagedZone) (change : Change)
    (ops : list operation) :
  str_in (class_name change) "Create" = false ->
  class_name change <> "Delete" ->
  class_name change <> "Update" ->
  apply_change gcloud_zone change ops = (Raise RuntimeError, ops).
Proof.
  intros Hc Hd Hu. unfold apply_change. rewrite Hc.
  apply String.eqb_neq in Hd, Hu. rewrite Hd, Hu. reflexivity.
Qed.

(** The first branch tests containment in 'Create', not equality: every
    class name that is a piece of 'Create' is handled as a Create. *)
Lemma apply_change_piece_of_create (gcloud_zone : ManagedZone)
    (change : Change) (ops : list operation) (rs : ResourceRecordSet) :
  str_in (class_name change) "Create" = true ->
  encode gcloud_zone (record change) = Ok rs ->
  apply_change gcloud_zone change ops = (Ok tt, ops ++ [add_record_set rs]).
Proof.
  intros Hc He. unfold apply_change. rewrite Hc, He. reflexivity.
Qed.

(** C4 at a change whose class name is 'Creat': it is none of Create,
    Delete and Update, yet it takes the Create branch, its record is added
    to the change set and the change set is submitted; no error is
    raised. *)
Theorem apply_unknown_kind_creat_accepted :
  class_name creat_change <> "Create" /\
  class_name creat_change <> "Delete" /\
  class_name creat_change <> "Update" /\
  apply_change example_zone creat_change []
  = (Ok tt, [add_record_set
               (resource_record_set example_zone "www.example.com." "A" 300
                  ["1.2.3.4"])]) /\
  _apply 0 remote_with_zone
    {| desired := empty_zone; changes := [creat_change] |}
  = (Ok Finished,
     [ListZones None;
      ChangesCreate
        [add_record_set
           (resource_record_set example_zone "www.example.com." "A" 300
              ["1.2.3.4"])]]).
Proof. repeat split; discriminate. Qed.



(** ** TXT codec *)

(** C6: a TXT record set with at least one rrdata entry decodes to
    [{values: rrdatas}] when it has more than one entry and to
    [{value: entry}] when it has exactly one, and a record carrying the
    decoded data encodes to the original rrdata list. *)
Theorem txt_cardinality_round_trip (gcloud_zone : ManagedZone)
    (gcloud_record : ResourceRecordSet) :
  rrdatas gcloud_record <> [] ->
  exists d,
    _data_for_TXT gcloud_record = Ok d /\
    ((1 < length (rrdatas gcloud_record))%nat ->
       d = {[ "values" := DList (rrdatas gcloud_record) ]}) /\
    (forall x, rrdatas gcloud_record = [x] -> d = {[ "value" := DStr x ]}) /\
    (forall r, data r = d ->
       _record_set_from_TXT gcloud_zone r
       = Ok (resource_record_set gcloud_zone (fqdn r) (_type r) (ttl r)
               (rrdatas gcloud_record))).
Proof.
  intros Hne. unfold _data_for_TXT, _record_set_from_TXT.
  destruct (rrdatas gcloud_record) as [|x [|y l]] eqn:Hrr; [congruence| |].
  - exists {[ "value" := DStr x ]}. cbn. repeat split.
    + intros H. lia.
    + intros x' [= <-]. reflexivity.
    + intros r ->. reflexivity.
  - exists {[ "values" := DList (x :: y :: l) ]}. cbn. repeat split.
    + intros x' [=].
    + intros r ->. reflexivity.
Qed.

Lemma txt_cardinality_round_trip_witness :
  exists d,
    _data_for_TXT txt_two = Ok d /\
    ((1 < length (rrdatas txt_two))%nat ->
       d = {[ "values" := DList (rrdatas txt_two) ]}) /\
    (forall x, rrdatas txt_two = [x] -> d = {[ "value" := DStr x ]}) /\
    (forall r, data r = d ->
       _record_set_from_TXT example_zone r
       = Ok (resource_record_set example_zone (fqdn r) (_type r) (ttl r)
               (rrdatas txt_two))).
Proof.
  apply (txt_cardinality_round_trip example_zone txt_two). discriminate.
Defined.

Example txt_two_decodes :
  _data_for_TXT txt_two = Ok {[ "values" := DList ["v=spf1 -all"; "hello world"] ]}.
Proof. reflexivity. Qed.

Example txt_one_decodes :
  _data_for_TXT txt_one = Ok {[ "value" := DStr "hello world" ]}.
Proof. reflexivity. Qed.

(** ** Relative names in populate *)

Lemma length_chars (s : string) : length (chars s) = String.length s.
Proof. induction s as [|c s IH]; simpl; [reflexivity | f_equal; exact IH]. Qed.

Lemma chars_app (s t : string) : chars (s +:+ t) = chars s ++ chars t.
Proof. induction s as [|c s IH]; simpl; [reflexivity | f_equal; exact IH]. Qed.

Lemma string_length_app (s t : string) :
  String.length (s +:+ t) = (String.length s + String.length t)%nat.
Proof. rewrite <- !length_chars, chars_app. apply length_app. Qed.

Lemma endswith_app (s t : string) : endswith (s +:+ t) t = true.
Proof.
  unfold endswith. rewrite string_length_app.
  replace (String.length s + String.length t - String.length t)%nat
    with (length (chars s)) by (rewrite length_chars; lia).
  rewrite chars_app, drop_app_length, text_chars, String.eqb_refl.
  rewrite andb_true_r. apply Nat.leb_le. lia.
Qed.

Lemma append_assoc' (s t u : string) : s +:+ t +:+ u = (s +:+ t) +:+ u.
Proof.
  induction s as [|c s IH]; [reflexivity|].
  change (String c (s +:+ t +:+ u) = String c ((s +:+ t) +:+ u)).
  rewrite IH. reflexivity.
Qed.



Lemma zone_with_nil (zone : Zone) : zone_with zone [] = zone.
Proof.
  destruct zone. unfold zone_with. cbn [zone_name records].
  rewrite app_nil_r. reflexivity.
Qed.

(** What one round of the second loop of [populate] does when it does
    not raise. *)
Lemma populate_record_ok (lib : Library) (zone zone' : Zone)
    (gcloud_record : ResourceRecordSet) :
  populate_record lib zone gcloud_record = Ok zone' ->
  exists d,
    decode gcloud_record = Ok d /\
    zone' = zone_with zone [populated_record zone gcloud_record d].
Proof.
  unfold populate_record, decode, Record_new, add_record.
  destruct (getattr data_methods (upper (record_type gcloud_record)))
    as [data_for|]; [|discriminate].
  cbn [mbind result_bind].
  destruct (data_for gcloud_record) as [d|]; [|discriminate].
  cbn [mbind result_bind].
  destruct (Record_new_raises lib zone _ _); [discriminate|].
  cbn [mbind result_bind].
  destruct (add_record_raises lib zone _); [discriminate|].
  intros [= <-]. exists d. split; reflexivity.
Qed.

(** The second loop of [populate], on every list of record sets and in
    every outcome: the record sets are taken one after the other, each one
    taken without an exception gets its record, and the loop takes them
    all unless it raises. *)
Lemma populate_records_run (lib : Library) (rss : list ResourceRecordSet) :
  forall zone r zone',
    populate_records lib zone rss = (r, zone') ->
    exists taken left added,
      rss = taken ++ left /\
      zone' = zone_with zone added /\
      List.Forall2
        (fun rs zr => exists d, decode rs = Ok d /\
                                zr = populated_record zone rs d)
        taken added /\
      (r = Ok tt -> left = []).
Proof.
  induction rss as [|rs rss IH]; intros zone r zone';
    cbn [populate_records].
  - intros [= <- <-]. exists [], [], []. rewrite zone_with_nil.
    split; [reflexivity|]. split; [reflexivity|].
    split; [constructor | reflexivity].
  - destruct (populate_record lib zone rs) as [zone1|e] eqn:Hr.
    + intros H. destruct (populate_record_ok _ _ _ _ Hr) as [d [Hd ->]].
      destruct (IH _ _ _ H) as [taken [left [added [-> [-> [Hall Hleft]]]]]].
      exists (rs :: taken), left, (populated_record zone rs d :: added).
      split; [reflexivity|]. split.
      * unfold zone_with. cbn [zone_name records].
        rewrite <- app_assoc. reflexivity.
      * split; [|exact Hleft].
        constructor; [exists d; split; [exact Hd | reflexivity] | exact Hall].
    + intros [= <- <-]. exists [], (rs :: rss), []. rewrite zone_with_nil.
      split; [reflexivity|]. split; [reflexivity|].
      split; [constructor | discriminate].
Qed.



Example populate_names_backwards :
  map zr_name
    (records (snd (fst (populate strict remote_with_records empty_zone))))
  = [EmptyString; "www"].
Proof. vm_compute. reflexivity. Qed.


Example relative_name_www :
  relative_name empty_zone "www.example.com." = "www".
Proof. reflexivity. Qed.

Example relative_name_apex_example :
  relative_name empty_zone "example.com." = EmptyString.
Proof. reflexivity. Qed.

(** ** Decoders that read the first rrdata entry *)

Lemma data_for_CNAME_raises (gcloud_record : ResourceRecordSet) :
  _data_for_CNAME gcloud_record = Raise IndexError <->
  rrdatas gcloud_record = [].
Proof.
  unfold _data_for_CNAME.
  destruct (rrdatas gcloud_record) as [|x l]; cbn; split; congruence.
Qed.

Lemma data_for_TXT_raises (gcloud_record : ResourceRecordSet) :
  _data_for_TXT gcloud_record = Raise IndexError <->
  rrdatas gcloud_record = [].
Proof.
  unfold _data_for_TXT.
  destruct (rrdatas gcloud_record) as [|x [|y l]]; cbn; split; congruence.
Qed.

Lemma data_for_CNAME_total (gcloud_record : ResourceRecordSet) :
  rrdatas gcloud_record <> [] ->
  exists d, _data_for_CNAME gcloud_record = Ok d.
Proof.
  unfold _data_for_CNAME.
  destruct (rrdatas gcloud_record) as [|x l]; [congruence|].
  intros _. eexists. reflexivity.
Qed.

Lemma data_for_TXT_total (gcloud_record : ResourceRecordSet) :
  rrdatas gcloud_record <> [] ->
  exists d, _data_for_TXT gcloud_record = Ok d.
Proof.
  unfold _data_for_TXT.
  destruct (rrdatas gcloud_record) as [|x [|y l]]; [congruence| |];
    intros _; eexists; reflexivity.
Qed.

(** [populate_record] is [decode] followed by the making of the record
    and its addition to the zone. *)
Lemma populate_record_decode (lib : Library) (zone : Zone)
    (gcloud_record : ResourceRecordSet) :
  populate_record lib zone gcloud_record
  = (d ← decode gcloud_record;
     record ← Record_new lib zone (relative_name zone (rs_name gcloud_record))
                (<["ttl" := DInt (rs_ttl gcloud_record)]>
                   (<["type" := DStr (upper (record_type gcloud_record))]> d));
     add_record lib zone record).
Proof.
  unfold populate_record, decode.
  destruct (getattr data_methods (upper (record_type gcloud_record)));
    reflexivity.
Qed.

(** One record set that does not decode makes the whole loop raise,
    wherever it stands in the iteration. *)
Lemma populate_records_raises (lib : Library) (rs : list ResourceRecordSet)
    (bad : ResourceRecordSet) :
  In bad rs -> raises (decode bad) ->
  forall zone, raises (fst (populate_records lib zone rs)).
Proof.
  induction rs as [|r rs IH]; intros Hin Hbad zone; [destruct Hin|].
  cbn [populate_records].
  destruct (populate_record lib zone r) as [zone'|e] eqn:Hr; [|exact I].
  destruct Hin as [-> | Hin]; [|apply IH; assumption].
  rewrite populate_record_decode in Hr.
  destruct (decode bad); [destruct Hbad | discriminate].
Qed.

Lemma decode_first_entry_empty (gcloud_record : ResourceRecordSet) :
  In (upper (record_type gcloud_record)) first_entry_types ->
  rrdatas gcloud_record = [] ->
  decode gcloud_record = Raise IndexError.
Proof.
  intros Ht Hrr. unfold decode.
  destruct Ht as [<- | [<- | [<- | []]]]; cbn [getattr data_methods];
    cbn; unfold _data_for_PTR, _data_for_CNAME, _data_for_TXT;
    rewrite Hrr; reflexivity.
Qed.

(** C10: the decoders of CNAME, PTR and TXT raise IndexError exactly on a
    record set whose rrdata list is empty and return data on every other
    one; and when the zone is found and such a record set of one of these
    types is among those listed, [populate] raises, in whatever order the
    set is iterated. *)
Theorem decode_first_entry_partial (lib : Library) (rem : remote) (zone : Zone)
    (gcloud_zone : ManagedZone) (calls : list event)
    (gcloud_record : ResourceRecordSet) :
  _get_gcloud_zone (zone_name zone) None (zone_pages rem) false []
  = (Ok (Some gcloud_zone), calls) ->
  In gcloud_record
     (fst (_get_gcloud_records gcloud_zone None
             (record_set_pages rem gcloud_zone) calls)) ->
  In (upper (record_type gcloud_record)) first_entry_types ->
  rrdatas gcloud_record = [] ->
  decode gcloud_record = Raise IndexError /\
  raises (fst (fst (populate lib rem zone))) /\
  (forall rs,
     (_data_for_CNAME rs = Raise IndexError <-> rrdatas rs = []) /\
     (_data_for_PTR rs = Raise IndexError <-> rrdatas rs = []) /\
     (_data_for_TXT rs = Raise IndexError <-> rrdatas rs = []) /\
     (rrdatas rs <> [] ->
      (exists d, _data_for_CNAME rs = Ok d) /\
      (exists d, _data_for_PTR rs = Ok d) /\
      (exists d, _data_for_TXT rs = Ok d))).
Proof.
  intros Hz Hin Ht Hrr.
  pose proof (decode_first_entry_empty gcloud_record Ht Hrr) as Hdec.
  split; [exact Hdec|]. split.
  - unfold populate. rewrite Hz.
    destruct (_get_gcloud_records gcloud_zone None
                (record_set_pages rem gcloud_zone) calls)
      as [listed calls'] eqn:Hl.
    cbn [fst] in *.
    apply (populate_records_raises lib _ gcloud_record).
    + apply (Permutation_in _ (Permutation_sym (set_iteration_perm lib _))).
      apply filter_In. split; [exact Hin|].
      destruct Ht as [<- | [<- | [<- | []]]]; reflexivity.
    + rewrite Hdec. exact I.
  - intros rs. repeat split;
      try apply data_for_CNAME_raises; try apply data_for_TXT_raises;
      try (apply data_for_CNAME_total; assumption);
      try (apply data_for_TXT_total; assumption).
Qed.

Lemma decode_first_entry_partial_witness :
  decode empty_cname = Raise IndexError /\
  raises (fst (fst (populate strict remote_with_empty_cname empty_zone))).
Proof.
  pose proof (decode_first_entry_partial strict remote_with_empty_cname
                empty_zone example_zone [ListZones None] empty_cname) as H.
  destruct H as [H1 [H2 _]].
  - reflexivity.
  - simpl. right. left. reflexivity.
  - simpl. left. reflexivity.
  - reflexivity.
  - split; assumption.
Defined.

Example populate_empty_cname :
  populate lenient remote_with_empty_cname empty_zone
  = (Raise IndexError,
     zone_with empty_zone
       [populated_record empty_zone www_a_set
          {[ "values" := DList ["1.2.3.4"] ]}],
     [ListZones None; ListRecordSets example_zone None]).
Proof. vm_compute. reflexivity. Qed.

Example populate_empty_cname_backwards :
  populate strict remote_with_empty_cname empty_zone
  = (Raise IndexError, empty_zone,
     [ListZones None; ListRecordSets example_zone None]).
Proof. vm_compute. reflexivity. Qed.

(** ** Round trips of the codec *)

(** X22: a record of type A, AAAA, NS or SPF whose values are plain
    strings, and whose data lists them under 'values', decodes after
    encoding to its own data. *)
Lemma raw_values_round_trip (gcloud_zone : ManagedZone) (r : DnsRecord)
    (l : list string) :
  In (_type r) ["A"; "AAAA"; "NS"; "SPF"] ->
  values r = Some (map Raw l) ->
  data r = {[ "values" := DList l ]} ->
  (rs ← _record_to_record_set gcloud_zone r; decode rs) = Ok (data r).
Proof.
  intros Ht Hv Hd.
  assert (He : for_each as_rrdata (map Raw l) = Ok l).
  { clear. induction l as [|x l IH]; [reflexivity|].
    cbn [map for_each as_rrdata mbind result_bind]. rewrite IH. reflexivity. }
  unfold _record_to_record_set.
  destruct Ht as [Ht | [Ht | [Ht | [Ht | []]]]]; rewrite <- Ht;
    cbn [getattr record_set_methods String.eqb Ascii.eqb Bool.eqb
         mbind result_bind];
    unfold _record_set_from_AAAA, _record_set_from_NS, _record_set_from_SPF,
      _record_set_from_A;
    rewrite Hv; cbn [attr mbind result_bind]; rewrite He;
    cbn [mbind result_bind]; unfold decode; rewrite <- Ht; rewrite Hd;
    reflexivity.
Qed.

(** X23: a CNAME or PTR record whose value is a plain string, and whose
    data holds it under 'value', decodes after encoding to its own data. *)
Lemma single_value_round_trip (gcloud_zone : ManagedZone) (r : DnsRecord)
    (v : string) :
  In (_type r) ["CNAME"; "PTR"] ->
  value r = Some (Raw v) ->
  data r = {[ "value" := DStr v ]} ->
  (rs ← _record_to_record_set gcloud_zone r; decode rs) = Ok (data r).
Proof.
  intros Ht Hv Hd. unfold _record_to_record_set.
  destruct Ht as [Ht | [Ht | []]]; rewrite <- Ht;
    cbn [getattr record_set_methods String.eqb Ascii.eqb Bool.eqb
         mbind result_bind];
    unfold _record_set_from_PTR, _record_set_from_CNAME;
    rewrite Hv; cbn [attr as_rrdata mbind result_bind];
    unfold decode; rewrite <- Ht; rewrite Hd; reflexivity.
Qed.

(** The encoder of CAA reads the key 'value' of the record's data, the
    decoder answers under the key 'values': whatever the record, decoding
    what was encoded never gives the record's data back. *)
Lemma caa_never_round_trips (gcloud_zone : ManagedZone) (r : DnsRecord)
    (rs : ResourceRecordSet) :
  _record_set_from_CAA gcloud_zone r = Ok rs ->
  _data_for_CAA rs <> Ok (data r).
Proof.
  unfold _record_set_from_CAA, _data_for_CAA, item. intros He Hd.
  destruct (data r !! "value") as [dv|] eqn:Hv; [|discriminate].
  destruct (split_all (rrdatas rs)) as [vs|]; [|discriminate].
  cbn [mbind result_bind] in Hd.
  destruct (for_each fields_CAA vs) as [ds|]; [|discriminate].
  cbn [mbind result_bind] in Hd. injection Hd as Hd.
  rewrite <- Hd in Hv. rewrite lookup_singleton_ne in Hv; discriminate.
Qed.

(** A CAA record whose data has the plural key only cannot be encoded. *)
Lemma caa_plural_data_raises (gcloud_zone : ManagedZone) (r : DnsRecord) :
  data r !! "value" = None ->
  _record_set_from_CAA gcloud_zone r = Raise KeyError.
Proof. intros H. unfold _record_set_from_CAA, item. rewrite H. reflexivity. Qed.

(** C1 at a CAA record with the single value
    [{flags: 0, tag: issue, value: ca.example.net}]: it encodes to the
    rrdata '0 issue ca.example.net', which decodes to data under the key
    'values', a list, while the record's data has the key 'value': the
    round trip does not give the record's data back. *)
Theorem caa_round_trip_key_mismatch :
  _record_to_record_set example_zone caa_record = Ok caa_record_set /\
  decode caa_record_set = Ok {[ "values" := DFieldsList [caa_fields] ]} /\
  data caa_record = {[ "value" := DFields caa_fields ]} /\
  (rs ← _record_to_record_set example_zone caa_record; decode rs)
  <> Ok (data caa_record).
Proof.
  split; [reflexivity|]. split; [vm_compute; reflexivity|].
  split; [reflexivity|].
  intros H. apply (caa_never_round_trips example_zone caa_record caa_record_set).
  - reflexivity.
  - exact H.
Qed.

(** *** Tokens without blanks, quotes or backslashes *)

Lemma plain_cases (c : ascii) :
  plain c = true ->
  is_whitespace c = false /\ is_quote c = false /\ is_escape c = false.
Proof.
  unfold plain. destruct (is_whitespace c), (is_quote c), (is_escape c);
    simpl; intros H; try discriminate; auto.
Qed.

Lemma lex_word (w : list ascii) : forall token quoted out rest,
  List.Forall (fun c => plain c = true) w ->
  lex InWord token quoted out (w ++ rest)
  = lex InWord (token ++ w) quoted out rest.
Proof.
  induction w as [|c w IH]; intros token quoted out rest Hw.
  - rewrite app_nil_r. reflexivity.
  - inversion Hw as [|? ? Hc Hw']; subst.
    destruct (plain_cases c Hc) as [H1 [H2 H3]].
    cbn [app lex]. rewrite H1, H2, H3. rewrite IH by exact Hw'.
    rewrite <- app_assoc. reflexivity.
Qed.

Lemma lex_start_word (t : string) (out : list string) (rest : list ascii) :
  plain_token t ->
  lex InSpace [] false out (chars t ++ rest)
  = lex InWord (chars t) false out rest.
Proof.
  intros [Hne Hp]. destruct t as [|c t]; [congruence|].
  cbn [chars list_ascii_of_string] in *.
  inversion Hp as [|? ? Hc Hw]; subst.
  destruct (plain_cases c Hc) as [H1 [H2 H3]].
  cbn [app lex]. rewrite H1, H2, H3.
  apply (lex_word _ [c]). exact Hw.
Qed.

Lemma emit_token (t : string) (out : list string) :
  t <> EmptyString -> emit (chars t) false out = out ++ [t].
Proof.
  intros Hne. destruct t as [|c t]; [congruence|].
  unfold emit. cbn [chars list_ascii_of_string].
  change (c :: list_ascii_of_string t) with (chars (String c t)).
  rewrite text_chars. reflexivity.
Qed.

(** [shlex.split] gives plain tokens joined by blanks back. *)
Lemma lex_joined (ts : list string) : forall out,
  List.Forall plain_token ts ->
  lex InSpace [] false out (joined ts) = Ok (out ++ ts).
Proof.
  induction ts as [|t ts IH]; intros out Hts.
  - rewrite app_nil_r. reflexivity.
  - inversion Hts as [|? ? Ht Hts']; subst.
    destruct ts as [|t' ts].
    + cbn [joined]. rewrite <- (app_nil_r (chars t)).
      rewrite lex_start_word by exact Ht. cbn [lex].
      rewrite emit_token by apply Ht. reflexivity.
    + change (joined (t :: t' :: ts))
        with (chars t ++ space :: joined (t' :: ts)).
      rewrite lex_start_word by exact Ht.
      change (lex InWord (chars t) false out (space :: joined (t' :: ts)))
        with (lex InSpace [] false (emit (chars t) false out)
                (joined (t' :: ts))).
      rewrite emit_token by apply Ht.
      rewrite IH by exact Hts'. rewrite <- app_assoc. reflexivity.
Qed.

Lemma shlex_split_two (a b : string) :
  plain_token a -> plain_token b ->
  shlex_split (a +:+ sp +:+ b) = Ok [a; b].
Proof.
  intros Ha Hb. unfold shlex_split. rewrite !chars_app.
  apply (lex_joined [a; b] []).
  repeat (apply List.Forall_cons; [assumption|]). apply List.Forall_nil.
Qed.

Lemma shlex_split_four (a b c d : string) :
  plain_token a -> plain_token b -> plain_token c -> plain_token d ->
  shlex_split (a +:+ sp +:+ b +:+ sp +:+ c +:+ sp +:+ d) = Ok [a; b; c; d].
Proof.
  intros Ha Hb Hc Hd. unfold shlex_split. rewrite !chars_app.
  apply (lex_joined [a; b; c; d] []).
  repeat (apply List.Forall_cons; [assumption|]). apply List.Forall_nil.
Qed.

(** *** MX and SRV *)

Lemma for_each_map {A B C} (f : B -> result C) (g : A -> B) (h : A -> C)
    (l : list A) :
  (forall x, In x l -> f (g x) = Ok (h x)) ->
  for_each f (map g l) = Ok (map h l).
Proof.
  induction l as [|x l IH]; intros H; [reflexivity|].
  cbn [map for_each]. rewrite (H x) by (left; reflexivity).
  cbn [mbind result_bind]. rewrite IH; [reflexivity|].
  intros y Hy. apply H. right. exact Hy.
Qed.

Lemma format_MX_value (pe : string * string) :
  format_MX (Structured (mx_value pe)) = Ok (mx_rrdata pe).
Proof. destruct pe as [p e]. reflexivity. Qed.

Lemma fields_MX_tokens (pe : string * string) :
  fields_MX [pe.1; pe.2] = Ok (mx_value pe).
Proof. reflexivity. Qed.

(** X24: an MX record whose values have exactly the fields preference and
    exchange, both non-empty and free of blanks, quotes and backslashes,
    decodes after encoding to its own data. *)
Lemma mx_round_trip (gcloud_zone : ManagedZone) (r : DnsRecord)
    (pes : list (string * string)) :
  _type r = "MX" ->
  (forall pe, In pe pes -> plain_mx pe) ->
  values r = Some (map (fun pe => Structured (mx_value pe)) pes) ->
  data r = {[ "values" := DFieldsList (map mx_value pes) ]} ->
  (rs ← _record_to_record_set gcloud_zone r; decode rs) = Ok (data r).
Proof.
  intros Ht Hp Hv Hd. unfold _record_to_record_set. rewrite Ht.
  cbn [getattr record_set_methods String.eqb Ascii.eqb Bool.eqb
       mbind result_bind].
  unfold _record_set_from_MX. rewrite Hv. cbn [attr mbind result_bind].
  rewrite (for_each_map format_MX _ mx_rrdata)
    by (intros; apply format_MX_value).
  cbn [mbind result_bind]. unfold decode, resource_record_set.
  cbn [record_type rrdatas]. rewrite Ht.
  change (getattr data_methods (upper "MX")) with (Ok _data_for_MX).
  cbn [mbind result_bind]. unfold _data_for_MX, split_all. cbn [rrdatas].
  rewrite (for_each_map shlex_split mx_rrdata (fun pe => [pe.1; pe.2])).
  - cbn [mbind result_bind].
    rewrite (for_each_map fields_MX (fun pe => [pe.1; pe.2]) mx_value)
      by (intros; apply fields_MX_tokens).
    cbn [mbind result_bind]. rewrite Hd. reflexivity.
  - intros pe Hpe. destruct (Hp pe Hpe) as [H1 H2].
    apply shlex_split_two; assumption.
Qed.

Lemma format_SRV_value (v : string * string * string * string) :
  format_SRV (Structured (srv_value v)) = Ok (srv_rrdata v).
Proof. destruct v as [[[a b] c] d]. reflexivity. Qed.

Lemma fields_SRV_tokens (v : string * string * string * string) :
  fields_SRV (srv_tokens v) = Ok (srv_value v).
Proof. destruct v as [[[a b] c] d]. reflexivity. Qed.

(** X25: an SRV record whose values have exactly the fields priority,
    weight, port and target, all non-empty and free of blanks, quotes and
    backslashes, decodes after encoding to its own data. *)
Lemma srv_round_trip (gcloud_zone : ManagedZone) (r : DnsRecord)
    (vs : list (string * string * string * string)) :
  _type r = "SRV" ->
  (forall v, In v vs -> plain_srv v) ->
  values r = Some (map (fun v => Structured (srv_value v)) vs) ->
  data r = {[ "values" := DFieldsList (map srv_value vs) ]} ->
  (rs ← _record_to_record_set gcloud_zone r; decode rs) = Ok (data r).
Proof.
  intros Ht Hp Hv Hd. unfold _record_to_record_set. rewrite Ht.
  cbn [getattr record_set_methods String.eqb Ascii.eqb Bool.eqb
       mbind result_bind].
  unfold _record_set_from_SRV. rewrite Hv. cbn [attr mbind result_bind].
  rewrite (for_each_map format_SRV _ srv_rrdata)
    by (intros; apply format_SRV_value).
  cbn [mbind result_bind]. unfold decode, resource_record_set.
  cbn [record_type rrdatas]. rewrite Ht.
  change (getattr data_methods (upper "SRV")) with (Ok _data_for_SRV).
  cbn [mbind result_bind]. unfold _data_for_SRV, split_all. cbn [rrdatas].
  rewrite (for_each_map shlex_split srv_rrdata srv_tokens).
  - cbn [mbind result_bind].
    rewrite (for_each_map fields_SRV srv_tokens srv_value)
      by (intros; apply fields_SRV_tokens).
    cbn [mbind result_bind]. rewrite Hd. reflexivity.
  - intros [[[a b] c] d] Hin. specialize (Hp _ Hin).
    unfold plain_srv in Hp. cbn [srv_tokens] in Hp.
    inversion Hp as [|? ? Ha Hp1]; subst.
    inversion Hp1 as [|? ? Hb Hp2]; subst.
    inversion Hp2 as [|? ? Hc Hp3]; subst.
    inversion Hp3 as [|? ? Hd' _]; subst.
    apply shlex_split_four; assumption.
Qed.

(** *** NAPTR and fields with blanks *)

(** The three quoted fields of NAPTR may hold blanks. *)
Example naptr_round_trip :
  (rs ← _record_to_record_set example_zone naptr_record; decode rs)
  = Ok (data naptr_record).
Proof. vm_compute. reflexivity. Qed.

(** The CAA fields are written without quotes: a value with a blank comes
    back cut at the blank. *)
Example caa_blank_value_cut :
  (rs ← _record_to_record_set example_zone caa_blank_record; decode rs)
  = Ok {[ "values" :=
            DFieldsList [<["flags" := "0"]> (<["tag" := "issue"]>
                           {[ "value" := "ca.example.net;" ]})] ]}.
Proof. vm_compute. reflexivity. Qed.

(** * Further properties *)

(** ** The zone locator on every listing *)

Lemma find_app {A} (f : A -> bool) (l1 l2 : list A) :
  List.find f (l1 ++ l2)
  = match List.find f l1 with
    | Some x => Some x
    | None => List.find f l2
    end.
Proof.
  induction l1 as [|x l1 IH]; [reflexivity|].
  simpl. destruct (f x); [reflexivity | exact IH].
Qed.

(** The locator without [create], on every listing. *)
Lemma locate_no_create (dname : string)
    (pages : listing ManagedZone) :
  forall tok calls, exists r more,
    _get_gcloud_zone dname tok pages false calls = (Ok r, calls ++ more) /\
    List.Forall is_list_zones more /\
    (forall z, r = Some z -> In z (all_items pages) /\ dns_name z = dname).
Proof.
  induction pages as [items | items next rest IH]; intros tok calls;
    cbn [_get_gcloud_zone page_items all_items];
    destruct (List.find _ items) as [z0|] eqn:Hf.
  - exists (Some z0), [ListZones tok]. apply find_some in Hf.
    destruct Hf as [Hin Hn]. apply String.eqb_eq in Hn.
    split; [reflexivity|]. split; [repeat constructor|].
    intros z1 [= <-]. split; assumption.
  - exists None, [ListZones tok].
    split; [reflexivity|]. split; [repeat constructor | discriminate].
  - exists (Some z0), [ListZones tok]. apply find_some in Hf.
    destruct Hf as [Hin Hn]. apply String.eqb_eq in Hn.
    split; [reflexivity|]. split; [repeat constructor|].
    intros z1 [= <-]. split; [apply in_or_app; left; exact Hin | exact Hn].
  - destruct (truthy next).
    + destruct (IH (Some next) (calls ++ [ListZones tok]))
        as [r [more [E [Hm Hr]]]].
      exists r, (ListZones tok :: more). rewrite E, <- app_assoc.
      split; [reflexivity|]. split; [constructor; [exact I | exact Hm]|].
      intros z1 Hz. destruct (Hr z1 Hz) as [Hin Hn].
      split; [apply in_or_app; right; exact Hin | exact Hn].
    + exists None, [ListZones tok].
      split; [reflexivity|]. split; [repeat constructor | discriminate].
Qed.

(** X1: without [create] the locator never raises, never creates a zone
    and makes nothing but zone-listing calls; the zone it returns, if
    any, is one of the listed zones and has the requested dns name. *)
Theorem locate_without_create_only_lists (dname : string)
    (pages : listing ManagedZone) :
  forall tok calls, exists r more,
    _get_gcloud_zone dname tok pages false calls = (Ok r, calls ++ more) /\
    List.Forall is_list_zones more /\
    (forall z, r = Some z -> In z (all_items pages) /\ dns_name z = dname).
Proof. apply locate_no_create. Qed.

(** X2: when every continuation token is non-empty and some listed zone
    has the requested dns name, the locator returns the first such zone in
    listing order, with or without [create], after listing calls only. *)
Theorem locate_returns_first_match (dname : string)
    (pages : listing ManagedZone) (z : ManagedZone) :
  tokens_truthy pages = true ->
  List.find (matches dname) (all_items pages) = Some z ->
  forall tok create calls, exists more,
    _get_gcloud_zone dname tok pages create calls
    = (Ok (Some z), calls ++ more) /\
    List.Forall is_list_zones more.
Proof.
  induction pages as [items | items next rest IH];
    intros Htok Hfind tok create calls;
    cbn [_get_gcloud_zone page_items all_items tokens_truthy] in *.
  - unfold matches in Hfind. rewrite Hfind.
    exists [ListZones tok]. split; [reflexivity | repeat constructor].
  - rewrite find_app in Hfind. unfold matches in Hfind at 1.
    destruct (List.find _ items) as [z0|] eqn:Hf.
    + injection Hfind as <-. exists [ListZones tok].
      split; [reflexivity | repeat constructor].
    + apply andb_prop in Htok. destruct Htok as [Hn Hrest]. rewrite Hn.
      destruct (IH Hrest Hfind (Some next) false (calls ++ [ListZones tok]))
        as [more [E Hm]].
      exists (ListZones tok :: more). rewrite E, <- app_assoc.
      split; [reflexivity | constructor; [exact I | exact Hm]].
Qed.

Lemma locate_returns_first_match_witness :
  exists more,
    _get_gcloud_zone "example.com." None two_page_zones true []
    = (Ok (Some example_zone), [] ++ more) /\
    List.Forall is_list_zones more.
Proof.
  apply (locate_returns_first_match "example.com." two_page_zones
           example_zone); reflexivity.
Defined.

(** X3: a zone returned by the locator always has the requested dns name;
    it is either one of the listed zones or, when [create] was asked for,
    the zone just created under the derived name, whose creation is then
    the last call made. *)
Theorem locate_result_provenance (dname : string)
    (pages : listing ManagedZone) :
  forall tok create calls z calls',
    _get_gcloud_zone dname tok pages create calls = (Ok (Some z), calls') ->
    dns_name z = dname /\
    (In z (all_items pages) \/
     (create = true /\
      derive_zone_name dname = Ok (mz_name z) /\
      last calls' = Some (ZoneCreate z))).
Proof.
  assert (Hcreate : forall calls z calls',
    match _create_gcloud_zone dname calls with
    | (Ok z0, c) => (Ok (Some z0), c)
    | (Raise e, c) => (Raise e, c)
    end = (Ok (Some z), calls') ->
    dns_name z = dname /\ derive_zone_name dname = Ok (mz_name z) /\
    last calls' = Some (ZoneCreate z)).
  { intros calls z calls'. unfold _create_gcloud_zone.
    destruct (derive_zone_name dname) as [zn|e]; [|discriminate].
    intros [= <- <-]. rewrite last_snoc. repeat split. }
  induction pages as [items | items next rest IH];
    intros tok create calls z calls';
    cbn [_get_gcloud_zone page_items all_items];
    destruct (List.find _ items) as [z0|] eqn:Hf.
  - intros [= <- _]. apply find_some in Hf. destruct Hf as [Hin Hn].
    apply String.eqb_eq in Hn. split; [exact Hn | left; exact Hin].
  - destruct create; [|discriminate]. intros H.
    destruct (Hcreate _ _ _ H) as [H1 [H2 H3]].
    split; [exact H1 | right; repeat split; assumption].
  - intros [= <- _]. apply find_some in Hf. destruct Hf as [Hin Hn].
    apply String.eqb_eq in Hn.
    split; [exact Hn | left; apply in_or_app; left; exact Hin].
  - destruct (truthy next).
    + intros H. destruct (IH _ _ _ _ _ H) as [H1 [Hin | [Hc _]]];
        [|discriminate].
      split; [exact H1 | left; apply in_or_app; right; exact Hin].
    + destruct create; [|discriminate]. intros H.
      destruct (Hcreate _ _ _ H) as [H1 [H2 H3]].
      split; [exact H1 | right; repeat split; assumption].
Qed.

Lemma locate_result_provenance_witness :
  dns_name example_zone = "example.com." /\
  (In example_zone (all_items (LastPage [other_zone])) \/
   (true = true /\
    derive_zone_name "example.com." = Ok (mz_name example_zone) /\
    last [ListZones None; ZoneCreate example_zone]
    = Some (ZoneCreate example_zone))).
Proof.
  apply (locate_result_provenance "example.com." (LastPage [other_zone])
           None true []).
  reflexivity.
Defined.




(** ** The derived zone name *)

Lemma filter_all {A} (f : A -> bool) (l : list A) :
  List.Forall (fun x => f x = true) (List.filter f l).
Proof.
  apply List.Forall_forall. intros x Hx. apply filter_In in Hx. apply Hx.
Qed.

Lemma is_lower_zone_char (c : ascii) : is_lower c = true -> zone_char c = true.
Proof. intros H. unfold zone_char. rewrite H. reflexivity. Qed.

(** X5: whenever [_create_gcloud_zone] returns, the zone it has created
    keeps the dns name it was given, its name is made of lowercase
    letters, digits and dashes only and begins with a lowercase letter,
    and the creation is the one call added. *)
Theorem create_zone_name_well_formed (dname : string) (calls calls' : list event)
    (z : ManagedZone) :
  _create_gcloud_zone dname calls = (Ok z, calls') ->
  dns_name z = dname /\
  calls' = calls ++ [ZoneCreate z] /\
  List.Forall (fun c => zone_char c = true) (chars (mz_name z)) /\
  exists c rest, mz_name z = String c rest /\ is_lower c = true.
Proof.
  unfold _create_gcloud_zone.
  destruct (derive_zone_name dname) as [zn|e] eqn:Hd; [|discriminate].
  intros [= <- <-]. cbn [dns_name mz_name].
  split; [reflexivity|]. split; [reflexivity|].
  destruct (sanitized dname) as [|c rest] eqn:Hs.
  { rewrite (derive_zone_name_empty dname Hs) in Hd. discriminate. }
  destruct (derive_zone_name_nonempty dname c rest Hs) as [Hform Hfirst].
  split.
  - assert (Hzn : zn = if is_lower c then text (c :: rest)
                       else "a" +:+ text (c :: rest)) by congruence.
    rewrite Hzn.
    pose proof (filter_all zone_char
                  (map dot_to_dash (chars (slice_to_minus dname 1)))) as Hall.
    fold (sanitized dname) in Hall. rewrite Hs in Hall.
    destruct (is_lower c).
    + rewrite chars_text. exact Hall.
    + rewrite chars_app, chars_text. constructor; [reflexivity | exact Hall].
  - destruct Hfirst as [c' [rest' [E Hc']]]. rewrite Hd in E.
    injection E as ->. exists c', rest'. split; [reflexivity | exact Hc'].
Qed.

Lemma create_zone_name_well_formed_witness :
  dns_name {| mz_name := "a0-0-127-in-addr-arpa";
              dns_name := "0.0.127.in-addr.arpa." |}
  = "0.0.127.in-addr.arpa." /\
  [ZoneCreate {| mz_name := "a0-0-127-in-addr-arpa";
                 dns_name := "0.0.127.in-addr.arpa." |}]
  = [] ++ [ZoneCreate {| mz_name := "a0-0-127-in-addr-arpa";
                         dns_name := "0.0.127.in-addr.arpa." |}] /\
  List.Forall (fun c => zone_char c = true) (chars "a0-0-127-in-addr-arpa") /\
  exists c rest, "a0-0-127-in-addr-arpa" = String c rest /\ is_lower c = true.
Proof.
  apply (create_zone_name_well_formed "0.0.127.in-addr.arpa." []
           [ZoneCreate {| mz_name := "a0-0-127-in-addr-arpa";
                          dns_name := "0.0.127.in-addr.arpa." |}]
           {| mz_name := "a0-0-127-in-addr-arpa";
              dns_name := "0.0.127.in-addr.arpa." |}).
  reflexivity.
Defined.

(** ** Listing the record sets *)

(** X6: when every continuation token is non-empty, [_get_gcloud_records]
    yields every record set of every page, in listing order, with one
    listing call per page: the first with the token it was given, each
    later one with the token of the page before. *)
Theorem get_records_complete (gcloud_zone : ManagedZone)
    (pages : listing ResourceRecordSet) :
  tokens_truthy pages = true ->
  forall tok calls,
    _get_gcloud_records gcloud_zone tok pages calls
    = (all_items pages,
       calls ++ map (ListRecordSets gcloud_zone)
                  (tok :: map Some (page_tokens pages))).
Proof.
  induction pages as [items | items next rest IH]; intros Htok tok calls;
    cbn [_get_gcloud_records all_items page_tokens tokens_truthy map] in *.
  - reflexivity.
  - apply andb_prop in Htok. destruct Htok as [Hn Hrest]. rewrite Hn.
    rewrite (IH Hrest). rewrite <- app_assoc. reflexivity.
Qed.

Lemma get_records_complete_witness :
  _get_gcloud_records example_zone None two_page_records []
  = ([soa_set; www_a_set; mx_set],
     [] ++ map (ListRecordSets example_zone)
             (None :: map Some (page_tokens two_page_records))).
Proof.
  apply (get_records_complete example_zone two_page_records).
  reflexivity.
Defined.

(** What the record-set generator yields, on every listing. *)
Lemma get_records_segment (gcloud_zone : ManagedZone)
    (pages : listing ResourceRecordSet) :
  forall tok calls, exists more later unlisted,
    _get_gcloud_records gcloud_zone tok pages calls
    = (page_items pages ++ later, calls ++ more) /\
    all_items pages = (page_items pages ++ later) ++ unlisted /\
    List.Forall is_list_record_sets more.
Proof.
  induction pages as [items | items next rest IH]; intros tok calls;
    cbn [_get_gcloud_records all_items page_items].
  - exists [ListRecordSets gcloud_zone tok], [], [].
    rewrite !app_nil_r. repeat split. repeat constructor.
  - destruct (truthy next).
    + destruct (IH (Some next) (calls ++ [ListRecordSets gcloud_zone tok]))
        as [more [later [unlisted [E [Hall Hm]]]]].
      rewrite E.
      exists (ListRecordSets gcloud_zone tok :: more),
        (page_items rest ++ later), unlisted.
      rewrite <- !app_assoc. split; [reflexivity|]. split.
      * rewrite Hall, <- !app_assoc. reflexivity.
      * constructor; [exact I | exact Hm].
    + exists [ListRecordSets gcloud_zone tok], [], (all_items rest).
      rewrite !app_nil_r. repeat split. repeat constructor.
Qed.

(** X7: on every listing, what [_get_gcloud_records] yields starts with
    the whole first page and is an initial segment of the listing, and the
    calls it adds are record-set listings only. *)
Theorem get_records_initial_segment (gcloud_zone : ManagedZone)
    (pages : listing ResourceRecordSet) :
  forall tok calls, exists more later unlisted,
    _get_gcloud_records gcloud_zone tok pages calls
    = (page_items pages ++ later, calls ++ more) /\
    all_items pages = (page_items pages ++ later) ++ unlisted /\
    List.Forall is_list_record_sets more.
Proof. apply get_records_segment. Qed.

(** ** Populate *)

Lemma decode_ok_supported (gcloud_record : ResourceRecordSet)
    (d : gmap string dval) :
  decode gcloud_record = Ok d ->
  supported (upper (record_type gcloud_record)) = true.
Proof.
  unfold decode.
  destruct (getattr data_methods (upper (record_type gcloud_record)))
    as [data_for|] eqn:Hg; [|discriminate].
  intros _. unfold supported, SUPPORTS. cbn [data_methods getattr] in Hg.
  cbn [existsb].
  repeat match type of Hg with
         | (if String.eqb ?n ?t then _ else _) = _ =>
             rewrite (String.eqb_sym t n);
             destruct (String.eqb n t); [reflexivity|]
         end.
  discriminate.
Qed.

Lemma populated_record_typed (zone : Zone) (gcloud_record : ResourceRecordSet)
    (d : gmap string dval) :
  decode gcloud_record = Ok d ->
  typed_record (populated_record zone gcloud_record d).
Proof.
  intros Hd. exists (upper (record_type gcloud_record)), (rs_ttl gcloud_record).
  cbn [zr_data populated_record].
  rewrite lookup_insert_ne by discriminate.
  rewrite lookup_insert_eq, lookup_insert_eq.
  split; [reflexivity|]. split; [|reflexivity].
  apply (decode_ok_supported _ _ Hd).
Qed.

(** X8: in every outcome, failure included, and in whatever order the set
    is iterated, [populate] leaves the zone's name and the records it
    already had as they were and only appends records; each appended
    record carries a 'type' that is one of the supported types and a
    'ttl'. *)
Theorem populate_only_appends (lib : Library) (rem : remote) (zone : Zone) :
  zone_name (snd (fst (populate lib rem zone))) = zone_name zone /\
  exists added,
    records (snd (fst (populate lib rem zone))) = records zone ++ added /\
    List.Forall typed_record added.
Proof.
  unfold populate.
  destruct (_get_gcloud_zone (zone_name zone) None (zone_pages rem) false [])
    as [[[gz|]|e] calls].
  - destruct (_get_gcloud_records gz None (record_set_pages rem gz) calls)
      as [listed calls'].
    destruct (populate_records lib zone
                (set_iteration lib
                   (List.filter (fun r => supported (upper (record_type r)))
                      listed))) as [r zone'] eqn:Hp.
    cbn [fst snd]. destruct (populate_records_run _ _ _ _ _ Hp)
      as [taken [left [added [_ [-> [Hall _]]]]]].
    split; [reflexivity|]. exists added. split; [reflexivity|].
    clear -Hall. induction Hall as [|rs zr taken added [d [Hd ->]] _ IH];
      constructor; [|exact IH].
    apply (populated_record_typed _ _ _ Hd).
  - cbn [fst snd]. split; [reflexivity|]. exists [].
    rewrite app_nil_r. split; [reflexivity | constructor].
  - cbn [fst snd]. split; [reflexivity|]. exists [].
    rewrite app_nil_r. split; [reflexivity | constructor].
Qed.

(** X9: [populate] only reads from the remote side: whatever the remote
    state and the zone, all its calls are zone listings and record-set
    listings; it creates no zone and submits no change. *)
Theorem populate_only_reads (lib : Library) (rem : remote) (zone : Zone) :
  List.Forall is_read_call (snd (populate lib rem zone)).
Proof.
  assert (Hz : forall l, List.Forall is_list_zones l ->
                         List.Forall is_read_call l).
  { intros l. apply List.Forall_impl. intros [] H; cbn in *; tauto. }
  assert (Hr : forall l, List.Forall is_list_record_sets l ->
                         List.Forall is_read_call l).
  { intros l. apply List.Forall_impl. intros [] H; cbn in *; tauto. }
  unfold populate.
  destruct (locate_no_create (zone_name zone)
              (zone_pages rem) None []) as [r [more [E [Hm _]]]].
  rewrite E. cbn [app]. destruct r as [gz|]; [|apply Hz; exact Hm].
  destruct (get_records_segment gz (record_set_pages rem gz)
              None more) as [more' [later [unlisted [E' [_ Hm']]]]].
  rewrite E'. cbn [snd]. apply List.Forall_app.
  split; [apply Hz; exact Hm | apply Hr; exact Hm'].
Qed.

(** The second loop of [populate] when every record set decodes and no
    record is refused. *)
Lemma populate_records_accepted (lib : Library) (zone : Zone)
    (rss : list ResourceRecordSet) (ds : list (gmap string dval)) :
  List.Forall2 decodes_to rss ds ->
  forall before,
    (forall k r,
       zip_with (populated_record zone) rss ds !! k = Some r ->
       Record_new_raises lib
         (zone_with zone
            (before ++ take k (zip_with (populated_record zone) rss ds)))
         (zr_name r) (zr_data r) = None /\
       add_record_raises lib
         (zone_with zone
            (before ++ take k (zip_with (populated_record zone) rss ds)))
         r = None) ->
    populate_records lib (zone_with zone before) rss
    = (Ok tt,
       zone_with zone (before ++ zip_with (populated_record zone) rss ds)).
Proof.
  induction 1 as [|rs d rss ds Hd _ IH]; intros before Hacc.
  - cbn [populate_records zip_with]. rewrite app_nil_r. reflexivity.
  - cbn [populate_records zip_with].
    rewrite populate_record_decode. unfold decodes_to in Hd. rewrite Hd.
    cbn [mbind result_bind].
    destruct (Hacc 0%nat (populated_record zone rs d) eq_refl) as [Hnew Hadd].
    cbn [take] in Hnew, Hadd. rewrite app_nil_r in Hnew, Hadd.
    unfold Record_new.
    change (relative_name (zone_with zone before) (rs_name rs))
      with (zr_name (populated_record zone rs d)).
    change (<["ttl" := DInt (rs_ttl rs)]>
              (<["type" := DStr (upper (record_type rs))]> d))
      with (zr_data (populated_record zone rs d)).
    rewrite Hnew. cbn [mbind result_bind]. unfold add_record.
    change {| zr_name := zr_name (populated_record zone rs d);
              zr_data := zr_data (populated_record zone rs d) |}
      with (populated_record zone rs d).
    rewrite Hadd.
    change {| zone_name := zone_name (zone_with zone before);
              records := records (zone_with zone before) ++
                         [populated_record zone rs d] |}
      with {| zone_name := zone_name zone;
              records := (records zone ++ before) ++
                         [populated_record zone rs d] |}.
    rewrite <- app_assoc.
    change {| zone_name := zone_name zone;
              records := records zone ++
                         before ++ [populated_record zone rs d] |}
      with (zone_with zone (before ++ [populated_record zone rs d])).
    rewrite IH.
    + rewrite <- app_assoc. reflexivity.
    + intros k r Hk. specialize (Hacc (S k) r Hk).
      cbn [take] in Hacc. rewrite <- app_assoc. exact Hacc.
Qed.

(** X10: when the zone exists remotely, every listed record set of a
    supported type decodes, and Record.new and add_record raise for none
    of the resulting records, [populate] returns normally and the zone
    gains exactly one record per such record set, in the order in which
    the set of record sets is iterated: its name is the relative name, its
    data the decoded data with 'type' and 'ttl' added.  Record sets of
    other types are skipped without error. *)
Theorem populate_adds_supported_records (lib : Library) (rem : remote)
    (zone : Zone) (gcloud_zone : ManagedZone) (calls calls' : list event)
    (listed : list ResourceRecordSet) (ds : list (gmap string dval)) :
  _get_gcloud_zone (zone_name zone) None (zone_pages rem) false []
  = (Ok (Some gcloud_zone), calls) ->
  _get_gcloud_records gcloud_zone None (record_set_pages rem gcloud_zone) calls
  = (listed, calls') ->
  List.Forall2 decodes_to
    (set_iteration lib (List.filter supported_set listed)) ds ->
  accepts lib zone
    (zip_with (populated_record zone)
       (set_iteration lib (List.filter supported_set listed)) ds) ->
  populate lib rem zone
  = (Ok tt,
     zone_with zone
       (zip_with (populated_record zone)
          (set_iteration lib (List.filter supported_set listed)) ds),
     calls').
Proof.
  intros Hz Hl Hd Hacc. unfold populate. rewrite Hz, Hl.
  fold supported_set.
  rewrite <- (zone_with_nil zone) at 1.
  rewrite (populate_records_accepted lib zone _ ds Hd []); [reflexivity|].
  exact Hacc.
Qed.

Lemma populate_adds_supported_records_witness :
  populate strict remote_with_records empty_zone
  = (Ok tt,
     zone_with empty_zone
       (zip_with (populated_record empty_zone)
          (set_iteration strict
             (List.filter supported_set [soa_set; www_a_set; mx_set]))
          [ {[ "values" :=
                 DFieldsList [<["preference" := "10"]>
                                {[ "exchange" := "mail.example.com." ]}] ]};
            {[ "values" := DList ["1.2.3.4"] ]} ]),
     [ListZones None; ListRecordSets example_zone None;
      ListRecordSets example_zone (Some "next")]).
Proof.
  apply (populate_adds_supported_records strict remote_with_records empty_zone
           example_zone [ListZones None]).
  - reflexivity.
  - reflexivity.
  - repeat constructor.
  - intros k r Hk. destruct k as [|[|k]]; cbn in Hk;
      [injection Hk as <- | injection Hk as <- | discriminate Hk];
      split; vm_compute; reflexivity.
Defined.

Example populate_two_pages :
  records (snd (fst (populate lenient remote_with_records empty_zone)))
  = [ {| zr_name := "www";
         zr_data := <["ttl" := DInt 300]> (<["type" := DStr "A"]>
                      {[ "values" := DList ["1.2.3.4"] ]}) |};
      {| zr_name := EmptyString;
         zr_data := <["ttl" := DInt 3600]> (<["type" := DStr "MX"]>
                      {[ "values" :=
                           DFieldsList [<["preference" := "10"]>
                                          {[ "exchange" := "mail.example.com." ]}] ]}) |} ].
Proof. vm_compute. reflexivity. Qed.

(** X11: the relative name is cut one character before the zone name,
    whatever that character is: a record named [q], any character [c] and
    the zone name gets the name [q], also when [c] is not a dot. *)
Theorem relative_name_cuts_one_more (zone : Zone) (q : string) (c : ascii) :
  relative_name zone (q +:+ String c (zone_name zone)) = q.
Proof.
  unfold relative_name.
  change (String c (zone_name zone))
    with (String c EmptyString +:+ zone_name zone).
  rewrite append_assoc', endswith_app. unfold slice_to_minus.
  rewrite !string_length_app, !chars_app. cbn [String.length].
  replace (String.length q + 1 + String.length (zone_name zone) -
           (String.length (zone_name zone) + 1))%nat
    with (length (chars q)) by (rewrite length_chars; lia).
  rewrite <- app_assoc, take_app_length. apply text_chars.
Qed.

Example relative_name_without_dot :
  relative_name empty_zone "badexample.com." = "ba".
Proof. reflexivity. Qed.

(** ** The change set built by apply *)

(** The loop over the changes, on a concatenation. *)
Lemma build_changes_concat (gcloud_zone : ManagedZone) (cs1 cs2 : list Change) :
  forall ops,
    build_changes gcloud_zone (cs1 ++ cs2) ops
    = match build_changes gcloud_zone cs1 ops with
      | (Ok _, ops1) => build_changes gcloud_zone cs2 ops1
      | (Raise e, ops1) => (Raise e, ops1)
      end.
Proof.
  induction cs1 as [|c cs1 IH]; intros ops; [reflexivity|].
  cbn [app build_changes].
  destruct (apply_change gcloud_zone c ops) as [[u|e] ops1];
    [apply IH | reflexivity].
Qed.

(** X12: the loop over the changes composes: building the change set for
    one list of changes followed by another is building it for the first
    and, unless that raised, going on with the second from the operations
    reached; after an exception the remaining changes are not looked at. *)
Theorem build_changes_app (gcloud_zone : ManagedZone) (cs1 cs2 : list Change) :
  forall ops,
    build_changes gcloud_zone (cs1 ++ cs2) ops
    = match build_changes gcloud_zone cs1 ops with
      | (Ok _, ops1) => build_changes gcloud_zone cs2 ops1
      | (Raise e, ops1) => (Raise e, ops1)
      end.
Proof. apply build_changes_concat. Qed.

Lemma apply_change_grows (gcloud_zone : ManagedZone) (c : Change)
    (ops : list operation) :
  exists added,
    snd (apply_change gcloud_zone c ops) = ops ++ added /\
    (length added <= 2)%nat.
Proof.
  unfold apply_change.
  destruct (str_in (class_name c) "Create").
  { destruct (encode gcloud_zone (record c)); cbn [snd];
      [eexists [_] | exists []; rewrite app_nil_r];
      split; try reflexivity; cbn [length]; lia. }
  destruct (String.eqb (class_name c) "Delete").
  { destruct (encode gcloud_zone (record c)); cbn [snd];
      [eexists [_] | exists []; rewrite app_nil_r];
      split; try reflexivity; cbn [length]; lia. }
  destruct (String.eqb (class_name c) "Update").
  - destruct (encode gcloud_zone (existing c)); cbn [snd].
    + destruct (encode gcloud_zone (new c)); cbn [snd].
      * eexists [_; _]. rewrite <- app_assoc.
        split; [reflexivity | cbn [length]; lia].
      * eexists [_]. split; [reflexivity | cbn [length]; lia].
    + exists []. rewrite app_nil_r. split; [reflexivity | cbn [length]; lia].
  - exists []. rewrite app_nil_r. split; [reflexivity | cbn [length]; lia].
Qed.

(** X13: the change set only grows: whatever the changes and whether or
    not one of them raises, the operations already in the change set stay
    in front, in order, and each change adds at most two operations. *)
Theorem build_changes_grows (gcloud_zone : ManagedZone) (cs : list Change) :
  forall ops, exists added,
    snd (build_changes gcloud_zone cs ops) = ops ++ added /\
    (length added <= 2 * length cs)%nat.
Proof.
  induction cs as [|c cs IH]; intros ops.
  - exists []. rewrite app_nil_r. split; [reflexivity | cbn; lia].
  - cbn [build_changes].
    destruct (apply_change_grows gcloud_zone c ops) as [a1 [E1 L1]].
    destruct (apply_change gcloud_zone c ops) as [[u|e] ops1];
      cbn [snd] in E1; subst ops1.
    + destruct (IH (ops ++ a1)) as [a2 [E2 L2]].
      exists (a1 ++ a2). rewrite E2, <- app_assoc.
      split; [reflexivity|]. rewrite length_app. cbn [length]. lia.
    + exists a1. split; [reflexivity | cbn [length]; lia].
Qed.

Lemma locate_calls_kind (dname : string) (pages : listing ManagedZone) :
  forall tok create calls, exists more,
    snd (_get_gcloud_zone dname tok pages create calls) = calls ++ more /\
    List.Forall is_locating_call more /\
    (zone_creations more <= 1)%nat.
Proof.
  assert (Hnf : forall tok (create : bool) calls, exists more,
    snd (if create
         then match _create_gcloud_zone dname (calls ++ [ListZones tok]) with
              | (Ok z, c) => (Ok (Some z), c)
              | (Raise e, c) => (Raise e, c)
              end
         else (Ok None, calls ++ [ListZones tok])) = calls ++ more /\
    List.Forall is_locating_call more /\
    (zone_creations more <= 1)%nat).
  { intros tok create calls. destruct create.
    - unfold _create_gcloud_zone. destruct (derive_zone_name dname).
      + eexists [_; _]. cbn [snd]. rewrite <- app_assoc.
        split; [reflexivity|]. split; [repeat constructor | cbn; lia].
      + exists [ListZones tok].
        split; [reflexivity|]. split; [repeat constructor | cbn; lia].
    - exists [ListZones tok].
      split; [reflexivity|]. split; [repeat constructor | cbn; lia]. }
  induction pages as [items | items next rest IH]; intros tok create calls;
    cbn [_get_gcloud_zone page_items];
    destruct (List.find _ items) as [z0|].
  - exists [ListZones tok].
    split; [reflexivity|]. split; [repeat constructor | cbn; lia].
  - apply Hnf.
  - exists [ListZones tok].
    split; [reflexivity|]. split; [repeat constructor | cbn; lia].
  - destruct (truthy next); [|apply Hnf].
    destruct (IH (Some next) false (calls ++ [ListZones tok]))
      as [more [E [Hm Hc]]].
    exists (ListZones tok :: more). rewrite E, <- app_assoc.
    split; [reflexivity|].
    split; [constructor; [exact I | exact Hm] | exact Hc].
Qed.

(** The only exception of the poll loop is the one of a reload. *)
Lemma poll_raises_reload (rem : remote) :
  forall fuel i k e calls,
    poll fuel rem i k = (Raise e, calls) ->
    exists j, (k < j <= k + fuel)%nat /\ reload_raises rem j = Some e.
Proof.
  induction fuel as [|fuel IH]; intros i k e calls; cbn [poll];
    destruct (String.eqb (status_after rem k) "done"); try discriminate.
  destruct (reload_raises rem (S k)) as [e'|] eqn:Hr.
  - intros [= <- _]. exists (S k). split; [lia | exact Hr].
  - destruct (poll fuel rem (next_delay i) (S k)) as [t calls'] eqn:Hp.
    intros [= -> _]. destruct (IH _ _ _ _ Hp) as [j [Hj E]].
    exists j. split; [lia | exact E].
Qed.

(** X14: when [_apply] raises there are two cases.  Either nothing has
    been submitted: the calls are zone listings and at most one zone
    creation (the zone was not found or could not be created, a change
    did not encode or was of no known kind, or no operation was built).
    Or one change set, not empty, was submitted after such calls, and the
    exception is the remote side's: the answer to the submission, after
    which nothing more is called, or the exception of a reload of the poll
    loop. *)
Theorem apply_failure_cases (fuel : nat) (rem : remote) (plan : Plan)
    (e : exn) (calls : list event) :
  _apply fuel rem plan = (Raise e, calls) ->
  (List.Forall is_locating_call calls /\ (zone_creations calls <= 1)%nat) \/
  (exists located ops polled,
     calls = located ++ [ChangesCreate ops] ++ polled /\
     List.Forall is_locating_call located /\
     (zone_creations located <= 1)%nat /\
     ops <> [] /\
     ((create_raises rem ops = Some e /\ polled = []) \/
      (create_raises rem ops = None /\
       poll fuel rem 1 0 = (Raise e, polled) /\
       exists j, (1 <= j <= fuel)%nat /\ reload_raises rem j = Some e))).
Proof.
  unfold _apply.
  destruct (locate_calls_kind (zone_name (desired plan)) (zone_pages rem)
              None true []) as [more [E [Hm Hc]]].
  destruct (_get_gcloud_zone (zone_name (desired plan)) None (zone_pages rem)
              true []) as [[[gz|]|e0] c]; cbn [snd app] in E; subst c;
    try (intros [= _ <-]; left; split; assumption).
  destruct (build_changes gz (changes plan) []) as [[u|e1] ops];
    [|intros [= _ <-]; left; split; assumption].
  destruct ops as [|op ops]; [intros [= _ <-]; left; split; assumption|].
  destruct (create_raises rem (op :: ops)) as [e2|] eqn:Hcr.
  - intros [= <- <-]. right. exists more, (op :: ops), [].
    rewrite app_nil_r.
    split; [reflexivity|]. split; [exact Hm|]. split; [exact Hc|].
    split; [discriminate|]. left. split; [exact Hcr | reflexivity].
  - destruct (poll fuel rem 1 0) as [t polled] eqn:Hp.
    intros [= -> <-]. right. exists more, (op :: ops), polled.
    rewrite <- app_assoc.
    split; [reflexivity|]. split; [exact Hm|]. split; [exact Hc|].
    split; [discriminate|]. right.
    split; [exact Hcr|]. split; [reflexivity|].
    destruct (poll_raises_reload _ _ _ _ _ _ Hp) as [j [Hj Ej]].
    exists j. split; [lia | exact Ej].
Qed.

Lemma apply_failure_cases_witness :
  (List.Forall is_locating_call
     [ListZones None;
      ChangesCreate [add_record_set www_a_record_set];
      Sleep 1; Reload; Sleep 3; Reload] /\
   (zone_creations
      [ListZones None;
       ChangesCreate [add_record_set www_a_record_set];
       Sleep 1; Reload; Sleep 3; Reload] <= 1)%nat) \/
  (exists located ops polled,
     [ListZones None;
      ChangesCreate [add_record_set www_a_record_set];
      Sleep 1; Reload; Sleep 3; Reload]
     = located ++ [ChangesCreate ops] ++ polled /\
     List.Forall is_locating_call located /\
     (zone_creations located <= 1)%nat /\
     ops <> [] /\
     ((create_raises remote_failing_reload ops
       = Some (Other "ServiceUnavailable") /\ polled = []) \/
      (create_raises remote_failing_reload ops = None /\
       poll 5 remote_failing_reload 1 0
       = (Raise (Other "ServiceUnavailable"), polled) /\
       exists j, (1 <= j <= 5)%nat /\
                 reload_raises remote_failing_reload j
                 = Some (Other "ServiceUnavailable")))).
Proof.
  apply (apply_failure_cases 5 remote_failing_reload
           {| desired := empty_zone; changes := [Create www_a] |}).
  reflexivity.
Defined.

Example apply_refused_change_set :
  _apply 5 remote_refusing
    {| desired := empty_zone; changes := [Create www_a] |}
  = (Raise (Other "BadRequest"),
     [ListZones None; ChangesCreate [add_record_set www_a_record_set]]).
Proof. reflexivity. Qed.

Example apply_empty_plan :
  _apply 5 remote_with_zone {| desired := empty_zone; changes := [] |}
  = (Raise ValueError, [ListZones None]).
Proof. reflexivity. Qed.

(** X15: when [_apply] returns, it has located or created a zone with the
    desired zone's name, built the operations of all the changes without
    an exception, at least one, submitted them once without the remote
    side refusing them, and then polled: the calls are the locating calls,
    the one submission, and the rounds of the poll loop. *)
Theorem apply_success_shape (fuel : nat) (rem : remote) (plan : Plan)
    (t : termination) (calls : list event) :
  _apply fuel rem plan = (Ok t, calls) ->
  exists gcloud_zone located ops,
    dns_name gcloud_zone = zone_name (desired plan) /\
    build_changes gcloud_zone (changes plan) [] = (Ok tt, ops) /\
    ops <> [] /\
    create_raises rem ops = None /\
    List.Forall is_locating_call located /\
    calls = located ++ [ChangesCreate ops] ++ snd (poll fuel rem 1 0) /\
    Ok t = fst (poll fuel rem 1 0).
Proof.
  unfold _apply.
  destruct (locate_calls_kind (zone_name (desired plan)) (zone_pages rem)
              None true []) as [more [E [Hm _]]].
  destruct (_get_gcloud_zone (zone_name (desired plan)) None (zone_pages rem)
              true []) as [[[gz|]|e0] c] eqn:Hloc; cbn [snd app] in E; subst c;
    [|discriminate|discriminate].
  destruct (build_changes gz (changes plan) []) as [[[]|e1] ops] eqn:Hb;
    [|discriminate].
  destruct ops as [|op ops]; [discriminate|].
  destruct (create_raises rem (op :: ops)) as [e2|] eqn:Hcr; [discriminate|].
  destruct (poll fuel rem 1 0) as [t0 polled]. intros [= -> <-].
  exists gz, more, (op :: ops). cbn [fst snd]. rewrite <- app_assoc.
  split; [apply (locate_first_match _ _ _ _ _ _ _ Hloc)|].
  split; [exact Hb|]. split; [discriminate|].
  repeat split; assumption.
Qed.

Lemma apply_success_shape_witness :
  exists gcloud_zone located ops,
    dns_name gcloud_zone = "example.com." /\
    build_changes gcloud_zone [Create www_a] [] = (Ok tt, ops) /\
    ops <> [] /\
    create_raises remote_empty ops = None /\
    List.Forall is_locating_call located /\
    [ListZones None;
     ZoneCreate {| mz_name := "example-com"; dns_name := "example.com." |};
     ChangesCreate [add_record_set www_a_record_set];
     Sleep 1; Reload; Sleep 3; Reload]
    = located ++ [ChangesCreate ops] ++ snd (poll 5 remote_empty 1 0) /\
    Ok Finished = fst (poll 5 remote_empty 1 0).
Proof.
  apply (apply_success_shape 5 remote_empty
           {| desired := empty_zone; changes := [Create www_a] |}).
  reflexivity.
Defined.

(** X16: a change whose class name is neither a piece of 'Create' nor
    'Delete' nor 'Update' stops [_apply] with RuntimeError wherever it
    stands in the plan: the changes before it had been added to the change
    set, the changes after it are not looked at, and nothing is
    submitted. *)
Theorem apply_unknown_kind_fails_fast (fuel : nat) (rem : remote)
    (plan : Plan) (gcloud_zone : ManagedZone) (calls : list event)
    (before after : list Change) (change : Change) (ops : list operation) :
  _get_gcloud_zone (zone_name (desired plan)) None (zone_pages rem) true []
  = (Ok (Some gcloud_zone), calls) ->
  changes plan = before ++ change :: after ->
  build_changes gcloud_zone before [] = (Ok tt, ops) ->
  str_in (class_name change) "Create" = false ->
  class_name change <> "Delete" ->
  class_name change <> "Update" ->
  build_changes gcloud_zone (changes plan) [] = (Raise RuntimeError, ops) /\
  _apply fuel rem plan = (Raise RuntimeError, calls).
Proof.
  intros Hz Hplan Hbefore Hc Hd Hu.
  assert (Hb : build_changes gcloud_zone (changes plan) []
               = (Raise RuntimeError, ops)).
  { rewrite Hplan, build_changes_concat, Hbefore. cbn [build_changes].
    rewrite (apply_change_unknown gcloud_zone change ops Hc Hd Hu).
    reflexivity. }
  split; [exact Hb|]. unfold _apply. rewrite Hz, Hb. reflexivity.
Qed.

Lemma apply_unknown_kind_fails_fast_witness :
  build_changes example_zone [Create www_a; rename_change; Delete www_a] []
  = (Raise RuntimeError, [add_record_set www_a_record_set]) /\
  _apply 5 remote_with_zone
    {| desired := empty_zone;
       changes := [Create www_a; rename_change; Delete www_a] |}
  = (Raise RuntimeError, [ListZones None]).
Proof.
  apply (apply_unknown_kind_fails_fast 5 remote_with_zone
           {| desired := empty_zone;
              changes := [Create www_a; rename_change; Delete www_a] |}
           example_zone [ListZones None] [Create www_a] [Delete www_a]
           rename_change [add_record_set www_a_record_set]);
    try reflexivity; discriminate.
Defined.

(** ** The method tables and the supported types *)

Lemma getattr_names {F} (methods : list (string * F)) (typ : string) :
  (exists f, getattr methods typ = Ok f) <->
  existsb (String.eqb typ) (map fst methods) = true.
Proof.
  induction methods as [|[n f] methods IH]; cbn [getattr map fst existsb].
  - split; [intros [f H]; discriminate | discriminate].
  - rewrite (String.eqb_sym typ n). destruct (String.eqb n typ); cbn [orb].
    + split; [reflexivity | intros _; exists f; reflexivity].
    + exact IH.
Qed.

Lemma getattr_missing {F} (methods : list (string * F)) (typ : string) :
  existsb (String.eqb typ) (map fst methods) = false ->
  getattr methods typ = Raise AttributeError.
Proof.
  induction methods as [|[n f] methods IH]; cbn [getattr map fst existsb];
    [reflexivity|].
  rewrite (String.eqb_sym typ n). destruct (String.eqb n typ); cbn [orb];
    [discriminate | exact IH].
Qed.

(** X17: the encoder methods and the decoder methods exist for exactly the
    types of SUPPORTS; a record of any other type, a supported type in
    lower case included, makes [_record_to_record_set] raise
    AttributeError, while the decoder is chosen by the upper-cased type. *)
Theorem methods_match_supports (typ : string) :
  ((exists f, getattr record_set_methods typ = Ok f) <->
   supported typ = true) /\
  ((exists f, getattr data_methods typ = Ok f) <-> supported typ = true) /\
  (forall gcloud_zone r,
     _type r = typ -> supported typ = false ->
     _record_to_record_set gcloud_zone r = Raise AttributeError) /\
  (forall rs,
     record_type rs = typ -> supported (upper typ) = false ->
     decode rs = Raise AttributeError).
Proof.
  split; [apply (getattr_names record_set_methods)|].
  split; [apply (getattr_names data_methods)|].
  split.
  - intros gz r <- Hs. unfold _record_to_record_set.
    rewrite (getattr_missing record_set_methods (_type r) Hs). reflexivity.
  - intros rs <- Hs. unfold decode.
    rewrite (getattr_missing data_methods (upper (record_type rs)) Hs).
    reflexivity.
Qed.

Example encode_lower_case_type :
  _record_to_record_set example_zone
    {| fqdn := "www.example.com."; _type := "a"; ttl := 300;
       data := {[ "values" := DList ["1.2.3.4"] ]};
       values := Some [Raw "1.2.3.4"]; value := None |}
  = Raise AttributeError.
Proof. reflexivity. Qed.

Example encode_unsupported_type :
  _record_to_record_set example_zone soa_record = Raise AttributeError.
Proof. reflexivity. Qed.

(** ** Apply on a zone that does not exist yet *)



Example apply_empty_plan_creates_zone :
  _apply 5 remote_empty {| desired := empty_zone; changes := [] |}
  = (Raise ValueError,
     [ListZones None;
      ZoneCreate {| mz_name := "example-com"; dns_name := "example.com." |}]).
Proof. reflexivity. Qed.

(** ** The poll loop ends on 'done' only *)

Lemma poll_finished_iff (rem : remote) :
  forall fuel i k,
    fst (poll fuel rem i k) = Ok Finished <->
    exists n, (n <= fuel)%nat /\ status_after rem (k + n) = "done" /\
              forall j, (j < n)%nat -> reload_raises rem (S (k + j)) = None.
Proof.
  induction fuel as [|fuel IH]; intros i k; cbn [poll];
    destruct (String.eqb_spec (status_after rem k) "done") as [Hd|Hd].
  - split; [intros _|reflexivity]. exists 0%nat.
    rewrite Nat.add_0_r. split; [lia|]. split; [exact Hd | intros j Hj; lia].
  - split; [discriminate|]. intros [n [Hn [Hs _]]].
    assert (n = 0)%nat by lia. subst n. rewrite Nat.add_0_r in Hs.
    contradiction.
  - split; [intros _|reflexivity]. exists 0%nat.
    rewrite Nat.add_0_r. split; [lia|]. split; [exact Hd | intros j Hj; lia].
  - destruct (reload_raises rem (S k)) as [e|] eqn:Hr.
    + split; [discriminate|]. intros [n [Hn [Hs Hl]]].
      destruct n as [|n].
      * rewrite Nat.add_0_r in Hs. contradiction.
      * specialize (Hl 0%nat). rewrite Nat.add_0_r, Hr in Hl.
        discriminate Hl. lia.
    + destruct (poll fuel rem (next_delay i) (S k)) as [t calls] eqn:Hp.
      cbn [fst]. specialize (IH (next_delay i) (S k)). rewrite Hp in IH.
      cbn [fst] in IH. rewrite IH. split.
      * intros [n [Hn [Hs Hl]]]. exists (S n). split; [lia|]. split.
        -- replace (k + S n)%nat with (S k + n)%nat by lia. exact Hs.
        -- intros j Hj. destruct j as [|j].
           ++ rewrite Nat.add_0_r. exact Hr.
           ++ replace (k + S j)%nat with (S k + j)%nat by lia.
              apply Hl. lia.
      * intros [n [Hn [Hs Hl]]]. destruct n as [|n].
        -- rewrite Nat.add_0_r in Hs. contradiction.
        -- exists n. split; [lia|]. split.
           ++ replace (S k + n)%nat with (k + S n)%nat by lia. exact Hs.
           ++ intros j Hj. replace (S k + j)%nat with (k + S j)%nat by lia.
              apply Hl. lia.
Qed.

(** X19: the poll loop has no other normal exit than the status 'done':
    within any bound on the rounds it has finished exactly when one of
    the statuses fetched was 'done' and every reload up to that one
    answered; when the reloads answer, it has finished exactly when one
    of the statuses fetched so far was 'done', and as long as none is, it
    has slept and reloaded once per round and is still waiting.  The only
    exception it raises is the one of a reload. *)
Theorem poll_ends_on_done_only (rem : remote) (fuel : nat) :
  (fst (poll fuel rem 1 0) = Ok Finished <->
   exists n, (n <= fuel)%nat /\ status_after rem n = "done" /\
             forall j, (1 <= j <= n)%nat -> reload_raises rem j = None) /\
  ((forall j, (1 <= j <= fuel)%nat -> reload_raises rem j = None) ->
   (fst (poll fuel rem 1 0) = Ok Finished <->
    exists n, (n <= fuel)%nat /\ status_after rem n = "done") /\
   ((forall n, (n <= fuel)%nat -> status_after rem n <> "done") ->
    poll fuel rem 1 0 = (Ok StillWaiting, flat_map round (seq 0 fuel)))) /\
  (forall e calls,
     poll fuel rem 1 0 = (Raise e, calls) ->
     exists j, (1 <= j <= fuel)%nat /\ reload_raises rem j = Some e).
Proof.
  assert (Hiff : fst (poll fuel rem 1 0) = Ok Finished <->
    exists n, (n <= fuel)%nat /\ status_after rem n = "done" /\
              forall j, (1 <= j <= n)%nat -> reload_raises rem j = None).
  { rewrite (poll_finished_iff rem fuel 1 0). cbn [Nat.add].
    split; intros [n [Hn [Hs Hl]]]; exists n;
      (split; [exact Hn|]); (split; [exact Hs|]).
    - intros j Hj. destruct j as [|j]; [lia|]. apply Hl. lia.
    - intros j Hj. apply Hl. lia. }
  split; [exact Hiff|]. split.
  - intros Hload. split.
    + rewrite Hiff. split.
      * intros [n [Hn [Hs _]]]. exists n. split; assumption.
      * intros [n [Hn Hs]]. exists n. split; [exact Hn|].
        split; [exact Hs|]. intros j Hj. apply Hload. lia.
    + intros H. change 1%Z with (delay 0). apply poll_waiting.
      * exact H.
      * intros j Hj. apply Hload. cbn [Nat.add]. lia.
  - intros e calls Hp.
    destruct (poll_raises_reload _ _ _ _ _ _ Hp) as [j [Hj E]].
    exists j. split; [lia | exact E].
Qed.

Example poll_reload_fails :
  poll 5 remote_failing_reload 1 0
  = (Raise (Other "ServiceUnavailable"), [Sleep 1; Reload; Sleep 3; Reload]).
Proof. reflexivity. Qed.

(** ** What encoding keeps *)

Lemma for_each_length {A B} (f : A -> result B) (l : list A) :
  forall ys, for_each f l = Ok ys -> length ys = length l.
Proof.
  induction l as [|x l IH]; intros ys; cbn [for_each].
  - intros [= <-]. reflexivity.
  - destruct (f x) as [y|]; [|discriminate]. cbn [mbind result_bind].
    destruct (for_each f l) as [ys'|]; [|discriminate].
    cbn [mbind result_bind]. intros [= <-]. cbn [length]. f_equal.
    apply IH. reflexivity.
Qed.

Lemma many_valued_shape (gcloud_zone : ManagedZone) (r : DnsRecord)
    (rs : ResourceRecordSet) (f : rvalue -> result string) :
  (vs ← attr (values r);
   rr ← for_each f vs;
   Ok (resource_record_set gcloud_zone (fqdn r) (_type r) (ttl r) rr)) = Ok rs ->
  exists vs rr,
    values r = Some vs /\ length rr = length vs /\
    rs = resource_record_set gcloud_zone (fqdn r) (_type r) (ttl r) rr.
Proof.
  intros H. destruct (values r) as [vs|]; [|discriminate].
  cbn [attr mbind result_bind] in H.
  destruct (for_each f vs) as [rr|] eqn:E; [|discriminate].
  cbn [mbind result_bind] in H. injection H as <-.
  exists vs, rr. repeat split. apply (for_each_length f vs rr E).
Qed.

Lemma one_valued_shape (gcloud_zone : ManagedZone) (r : DnsRecord)
    (rs : ResourceRecordSet) (m : result string) :
  (s ← m;
   Ok (resource_record_set gcloud_zone (fqdn r) (_type r) (ttl r) [s])) = Ok rs ->
  exists s, rs = resource_record_set gcloud_zone (fqdn r) (_type r) (ttl r) [s].
Proof.
  destruct m as [s|]; [|discriminate]. cbn [mbind result_bind].
  intros [= <-]. exists s. reflexivity.
Qed.

(** What every encoder builds: the record's fqdn, type and ttl around a
    list of rrdata entries. *)
Lemma encode_shape (gcloud_zone : ManagedZone) (r : DnsRecord)
    (rs : ResourceRecordSet) :
  _record_to_record_set gcloud_zone r = Ok rs ->
  exists rr,
    rs = resource_record_set gcloud_zone (fqdn r) (_type r) (ttl r) rr /\
    (In (_type r) many_valued_types ->
     exists vs, values r = Some vs /\ length rr = length vs) /\
    (In (_type r) one_valued_types -> length rr = 1%nat).
Proof.
  unfold _record_to_record_set. intros H.
  destruct (getattr record_set_methods (_type r)) as [f|] eqn:Hg;
    [|discriminate].
  cbn [mbind result_bind] in H. cbn [getattr record_set_methods] in Hg.
  assert (Hmany : forall g,
    (vs ← attr (values r);
     rr ← for_each g vs;
     Ok (resource_record_set gcloud_zone (fqdn r) (_type r) (ttl r) rr))
    = Ok rs ->
    In (_type r) many_valued_types ->
    exists rr,
      rs = resource_record_set gcloud_zone (fqdn r) (_type r) (ttl r) rr /\
      (In (_type r) many_valued_types ->
       exists vs, values r = Some vs /\ length rr = length vs) /\
      (In (_type r) one_valued_types -> length rr = 1%nat)).
  { intros g Hrs Hin.
    destruct (many_valued_shape _ _ _ _ Hrs) as [vs [rr [Hv [Hl ->]]]].
    exists rr. split; [reflexivity|]. split.
    - intros _. exists vs. split; assumption.
    - intros Hone. exfalso. revert Hin Hone. clear.
      unfold many_valued_types, one_valued_types. cbn [In].
      intros [<-|[<-|[<-|[<-|[<-|[<-|[<-|[]]]]]]]] [H|[H|[H|[]]]];
        discriminate. }
  assert (Hone : forall m,
    (s ← m;
     Ok (resource_record_set gcloud_zone (fqdn r) (_type r) (ttl r) [s]))
    = Ok rs ->
    In (_type r) one_valued_types ->
    exists rr,
      rs = resource_record_set gcloud_zone (fqdn r) (_type r) (ttl r) rr /\
      (In (_type r) many_valued_types ->
       exists vs, values r = Some vs /\ length rr = length vs) /\
      (In (_type r) one_valued_types -> length rr = 1%nat)).
  { intros m Hrs Hin.
    destruct (one_valued_shape _ _ _ _ Hrs) as [s ->].
    exists [s]. split; [reflexivity|]. split.
    - intros Hmany'. exfalso. revert Hin Hmany'. clear.
      unfold many_valued_types, one_valued_types. cbn [In].
      intros [<-|[<-|[<-|[]]]] [H|[H|[H|[H|[H|[H|[H|[]]]]]]]];
        discriminate.
    - intros _. reflexivity. }
  repeat match type of Hg with
         | (if String.eqb ?n ?t then _ else _) = _ =>
             let E := fresh "E" in
             destruct (String.eqb_spec n t) as [E|E]
         end; try discriminate; injection Hg as <-.
  - apply (Hmany as_rrdata H). rewrite <- E.
    unfold many_valued_types; cbn [In]; tauto.
  - apply (Hmany as_rrdata H). rewrite <- E0.
    unfold many_valued_types; cbn [In]; tauto.
  - unfold _record_set_from_CAA in H.
    destruct (item (data r) "value") as [dv|]; [|discriminate].
    cbn [mbind result_bind] in H.
    apply (Hone _ H). rewrite <- E1.
    unfold one_valued_types; cbn [In]; tauto.
  - unfold _record_set_from_CNAME in H.
    destruct (attr (value r)) as [v|]; [|discriminate].
    cbn [mbind result_bind] in H.
    apply (Hone _ H). rewrite <- E2.
    unfold one_valued_types; cbn [In]; tauto.
  - apply (Hmany format_MX H). rewrite <- E3.
    unfold many_valued_types; cbn [In]; tauto.
  - apply (Hmany format_NAPTR H). rewrite <- E4.
    unfold many_valued_types; cbn [In]; tauto.
  - apply (Hmany as_rrdata H). rewrite <- E5.
    unfold many_valued_types; cbn [In]; tauto.
  - unfold _record_set_from_PTR, _record_set_from_CNAME in H.
    destruct (attr (value r)) as [v|]; [|discriminate].
    cbn [mbind result_bind] in H.
    apply (Hone _ H). rewrite <- E6.
    unfold one_valued_types; cbn [In]; tauto.
  - apply (Hmany as_rrdata H). rewrite <- E7.
    unfold many_valued_types; cbn [In]; tauto.
  - apply (Hmany format_SRV H). rewrite <- E8.
    unfold many_valued_types; cbn [In]; tauto.
  - unfold _record_set_from_TXT in H.
    destruct (match data r !! "values" with
              | Some dv => match dv with DList l => Ok l | _ => Raise TypeError end
              | None => dv ← item (data r) "value";
                        match dv with DStr s => Ok [s] | _ => Raise TypeError end
              end) as [val|]; [|discriminate].
    cbn [mbind result_bind] in H. injection H as <-.
    exists val. split; [reflexivity|]. rewrite <- E9. split.
    + unfold many_valued_types. cbn [In].
      intros [H|[H|[H|[H|[H|[H|[H|[]]]]]]]]; discriminate.
    + unfold one_valued_types. cbn [In].
      intros [H|[H|[H|[]]]]; discriminate.
Qed.

(** X20: a record set that [_record_to_record_set] returns carries the
    record's fqdn, type and ttl unchanged, and the record's type is one of
    the supported types. *)
Theorem encode_keeps_name_type_ttl (gcloud_zone : ManagedZone) (r : DnsRecord)
    (rs : ResourceRecordSet) :
  _record_to_record_set gcloud_zone r = Ok rs ->
  rs_name rs = fqdn r /\ record_type rs = _type r /\ rs_ttl rs = ttl r /\
  supported (_type r) = true.
Proof.
  intros H. destruct (encode_shape _ _ _ H) as [rr [-> _]].
  repeat split. apply (getattr_names record_set_methods).
  unfold _record_to_record_set in H.
  destruct (getattr record_set_methods (_type r)) as [f|];
    [exists f; reflexivity | discriminate].
Qed.

Lemma encode_keeps_name_type_ttl_witness :
  rs_name www_a_record_set = fqdn www_a /\
  record_type www_a_record_set = _type www_a /\
  rs_ttl www_a_record_set = ttl www_a /\
  supported (_type www_a) = true.
Proof.
  apply (encode_keeps_name_type_ttl example_zone www_a www_a_record_set).
  reflexivity.
Defined.

(** X21: encoding writes one rrdata entry per value of the record for the
    types A, AAAA, NS, SPF, MX, NAPTR and SRV, and exactly one entry for
    CAA, CNAME and PTR. *)
Theorem encode_entry_count (gcloud_zone : ManagedZone) (r : DnsRecord)
    (rs : ResourceRecordSet) :
  _record_to_record_set gcloud_zone r = Ok rs ->
  (In (_type r) many_valued_types ->
   exists vs, values r = Some vs /\ length (rrdatas rs) = length vs) /\
  (In (_type r) one_valued_types -> length (rrdatas rs) = 1%nat).
Proof.
  intros H. destruct (encode_shape _ _ _ H) as [rr [-> Hcount]].
  exact Hcount.
Qed.

Lemma encode_entry_count_witness :
  exists rs,
    _record_to_record_set example_zone mx_record = Ok rs /\
    (In (_type mx_record) many_valued_types ->
     exists vs, values mx_record = Some vs /\
                length (rrdatas rs) = length vs) /\
    (In (_type mx_record) one_valued_types -> length (rrdatas rs) = 1%nat).
Proof.
  exists (resource_record_set example_zone "example.com." "MX" 3600
            ["10 mail.example.com."; "20 backup.example.com."]).
  split; [reflexivity|].
  apply (encode_entry_count example_zone mx_record). reflexivity.
Defined.

(** ** Round trips, type by type *)

Lemma raw_values_round_trip_witness :
  (rs ← _record_to_record_set example_zone www_a; decode rs) = Ok (data www_a).
Proof.
  apply (raw_values_round_trip example_zone www_a ["1.2.3.4"]);
    [left; reflexivity | reflexivity | reflexivity].
Defined.

Lemma single_value_round_trip_witness :
  (rs ← _record_to_record_set example_zone cname_record; decode rs)
  = Ok (data cname_record).
Proof.
  apply (single_value_round_trip example_zone cname_record "example.com.");
    [left; reflexivity | reflexivity | reflexivity].
Defined.

Lemma plain_token_check (t : string) :
  t <> EmptyString ->
  forallb plain (chars t) = true ->
  plain_token t.
Proof.
  intros Hne Hall. split; [exact Hne|].
  apply List.Forall_forall. intros c Hc.
  apply (proj1 (forallb_forall plain (chars t)) Hall c Hc).
Qed.

Lemma mx_round_trip_witness :
  (rs ← _record_to_record_set example_zone mx_record; decode rs)
  = Ok (data mx_record).
Proof.
  apply (mx_round_trip example_zone mx_record
           [("10", "mail.example.com."); ("20", "backup.example.com.")]).
  - reflexivity.
  - intros pe [<- | [<- | []]]; split;
      apply plain_token_check; (discriminate || reflexivity).
  - reflexivity.
  - reflexivity.
Defined.

Lemma srv_round_trip_witness :
  (rs ← _record_to_record_set example_zone srv_record; decode rs)
  = Ok (data srv_record).
Proof.
  apply (srv_round_trip example_zone srv_record
           [("10", "20", "5060", "sip.example.com.")]).
  - reflexivity.
  - intros v [<- | []]. unfold plain_srv. cbn [srv_tokens].
    repeat (apply List.Forall_cons;
            [apply plain_token_check; (discriminate || reflexivity)|]).
    apply List.Forall_nil.
  - reflexivity.
  - reflexivity.
Defined.

(** *** Quoted fields *)

Lemma quotable_cases (c : ascii) :
  quotable c = true -> Ascii.eqb c dquote = false /\ is_escape c = false.
Proof.
  unfold quotable. destruct (Ascii.eqb c dquote), (is_escape c);
    simpl; intros H; try discriminate; auto.
Qed.

Lemma lex_in_quotes (w : list ascii) : forall token quoted out rest,
  List.Forall (fun c => quotable c = true) w ->
  lex (InQuote dquote) token quoted out (w ++ dquote :: rest)
  = lex InWord (token ++ w) true out rest.
Proof.
  induction w as [|c w IH]; intros token quoted out rest Hw.
  - rewrite app_nil_r. reflexivity.
  - inversion Hw as [|? ? Hc Hw']; subst.
    destruct (quotable_cases c Hc) as [H1 H2].
    cbn [app lex]. rewrite H1, H2. cbn [andb].
    rewrite IH by exact Hw'. rewrite <- app_assoc. reflexivity.
Qed.

(** Reading one piece from the blank state leaves the word state with the
    text of the piece as the token. *)
Lemma lex_piece (p : piece) (out : list string) (rest : list ascii) :
  piece_ok p ->
  exists quoted,
    lex InSpace [] false out (piece_chars p ++ rest)
    = lex InWord (chars (piece_text p)) quoted out rest /\
    emit (chars (piece_text p)) quoted out = out ++ [piece_text p].
Proof.
  destruct p as [t|t]; cbn [piece_ok piece_chars piece_text]; intros Hp.
  - exists false. split; [apply lex_start_word; exact Hp|].
    apply emit_token. apply Hp.
  - exists true. split.
    + cbn [app]. change (lex InSpace [] false out
                           (dquote :: (chars t ++ [dquote]) ++ rest))
        with (lex (InQuote dquote) [] false out
                ((chars t ++ [dquote]) ++ rest)).
      rewrite <- app_assoc. cbn [app].
      apply (lex_in_quotes (chars t) [] false out rest Hp).
    + unfold emit. rewrite text_chars. destruct (chars t); reflexivity.
Qed.

(** [shlex.split] gives the texts of bare and quoted pieces joined by
    blanks back. *)
Lemma lex_rendered (ps : list piece) : forall out,
  List.Forall piece_ok ps ->
  lex InSpace [] false out (rendered ps) = Ok (out ++ map piece_text ps).
Proof.
  induction ps as [|p ps IH]; intros out Hps.
  - rewrite app_nil_r. reflexivity.
  - inversion Hps as [|? ? Hp Hps']; subst.
    destruct ps as [|p' ps].
    + cbn [rendered map]. rewrite <- (app_nil_r (piece_chars p)).
      destruct (lex_piece p out [] Hp) as [quoted [E Hemit]].
      rewrite E. cbn [lex]. rewrite Hemit. reflexivity.
    + change (rendered (p :: p' :: ps))
        with (piece_chars p ++ space :: rendered (p' :: ps)).
      destruct (lex_piece p out (space :: rendered (p' :: ps)) Hp)
        as [quoted [E Hemit]].
      rewrite E.
      change (lex InWord (chars (piece_text p)) quoted out
                (space :: rendered (p' :: ps)))
        with (lex InSpace [] false (emit (chars (piece_text p)) quoted out)
                (rendered (p' :: ps))).
      rewrite Hemit, IH by exact Hps'.
      rewrite <- app_assoc. reflexivity.
Qed.

Lemma chars_in_quotes (s : string) :
  chars (in_quotes s) = dquote :: chars s ++ [dquote].
Proof.
  unfold in_quotes.
  change (chars (String dquote (s +:+ String dquote EmptyString)))
    with (dquote :: chars (s +:+ String dquote EmptyString)).
  rewrite chars_app. reflexivity.
Qed.

Lemma format_NAPTR_value (v : naptr_value) :
  format_NAPTR (Structured (naptr_dict v)) = Ok (naptr_rrdata v).
Proof. destruct v. reflexivity. Qed.

Lemma fields_NAPTR_tokens (v : naptr_value) :
  fields_NAPTR (map piece_text (naptr_pieces v)) = Ok (naptr_dict v).
Proof. destruct v. reflexivity. Qed.

Lemma shlex_split_naptr (v : naptr_value) :
  naptr_ok v ->
  shlex_split (naptr_rrdata v) = Ok (map piece_text (naptr_pieces v)).
Proof.
  intros Hv. unfold shlex_split, naptr_rrdata.
  rewrite !chars_app, !chars_in_quotes.
  apply (lex_rendered (naptr_pieces v) [] Hv).
Qed.

(** X26: a NAPTR record whose values have exactly the six NAPTR fields
    decodes after encoding to its own data when order, preference and
    replacement are non-empty and free of blanks, quotes and backslashes
    and flags, service and regexp hold no double quote and no backslash;
    these three may be empty and may hold blanks. *)
Theorem naptr_values_round_trip (gcloud_zone : ManagedZone) (r : DnsRecord)
    (vs : list naptr_value) :
  _type r = "NAPTR" ->
  (forall v, In v vs -> naptr_ok v) ->
  values r = Some (map (fun v => Structured (naptr_dict v)) vs) ->
  data r = {[ "values" := DFieldsList (map naptr_dict vs) ]} ->
  (rs ← _record_to_record_set gcloud_zone r; decode rs) = Ok (data r).
Proof.
  intros Ht Hp Hv Hd. unfold _record_to_record_set. rewrite Ht.
  cbn [getattr record_set_methods String.eqb Ascii.eqb Bool.eqb
       mbind result_bind].
  unfold _record_set_from_NAPTR. rewrite Hv. cbn [attr mbind result_bind].
  rewrite (for_each_map format_NAPTR _ naptr_rrdata)
    by (intros; apply format_NAPTR_value).
  cbn [mbind result_bind]. unfold decode, resource_record_set.
  cbn [record_type rrdatas]. rewrite Ht.
  change (getattr data_methods (upper "NAPTR")) with (Ok _data_for_NAPTR).
  cbn [mbind result_bind]. unfold _data_for_NAPTR, split_all. cbn [rrdatas].
  rewrite (for_each_map shlex_split naptr_rrdata
             (fun v => map piece_text (naptr_pieces v)))
    by (intros v Hin; apply shlex_split_naptr; apply Hp; exact Hin).
  cbn [mbind result_bind].
  rewrite (for_each_map fields_NAPTR
             (fun v => map piece_text (naptr_pieces v)) naptr_dict)
    by (intros; apply fields_NAPTR_tokens).
  cbn [mbind result_bind]. rewrite Hd. reflexivity.
Qed.

Lemma quotable_text_check (t : string) :
  forallb quotable (chars t) = true -> quotable_text t.
Proof.
  intros Hall. apply List.Forall_forall. intros c Hc.
  apply (proj1 (forallb_forall quotable (chars t)) Hall c Hc).
Qed.

Lemma naptr_values_round_trip_witness :
  (rs ← _record_to_record_set example_zone sip_naptr_record; decode rs)
  = Ok (data sip_naptr_record).
Proof.
  apply (naptr_values_round_trip example_zone sip_naptr_record [sip_naptr]).
  - reflexivity.
  - intros v [<- | []]. unfold naptr_ok, naptr_pieces.
    repeat (apply List.Forall_cons;
            [first [ apply plain_token_check; (discriminate || reflexivity)
                   | apply quotable_text_check; reflexivity ]|]).
    apply List.Forall_nil.
  - reflexivity.
  - reflexivity.
Defined.

(** ** TXT, from the record to the record set and back *)

(** X27: for a TXT record, decoding what was encoded gives the record's
    data back when the data is one 'value' or a list of two or more
    'values'; a 'values' list of one entry comes back as the single
    'value', and an empty 'values' list encodes to a record set that does
    not decode (IndexError). *)
Theorem txt_encode_then_decode (gcloud_zone : ManagedZone) (r : DnsRecord) :
  _type r = "TXT" ->
  (forall s, data r = {[ "value" := DStr s ]} ->
     (rs ← _record_to_record_set gcloud_zone r; decode rs) = Ok (data r)) /\
  (forall l, data r = {[ "values" := DList l ]} -> (1 < length l)%nat ->
     (rs ← _record_to_record_set gcloud_zone r; decode rs) = Ok (data r)) /\
  (forall s, data r = {[ "values" := DList [s] ]} ->
     (rs ← _record_to_record_set gcloud_zone r; decode rs)
     = Ok {[ "value" := DStr s ]}) /\
  (data r = {[ "values" := DList [] ]} ->
     (rs ← _record_to_record_set gcloud_zone r; decode rs)
     = Raise IndexError).
Proof.
  destruct r as [name typ t d vs v]. cbn [_type data]. intros ->.
  split; [|split; [|split]].
  - intros s ->. reflexivity.
  - intros l -> Hl. destruct l as [|x [|y l]]; cbn [length] in Hl; try lia.
    reflexivity.
  - intros s ->. reflexivity.
  - intros ->. reflexivity.
Qed.

Lemma txt_encode_then_decode_witness :
  (rs ← _record_to_record_set example_zone
          (txt_record {[ "values" := DList ["hello world"] ]});
   decode rs)
  = Ok {[ "value" := DStr "hello world" ]}.
Proof.
  destruct (txt_encode_then_decode example_zone
              (txt_record {[ "values" := DList ["hello world"] ]}) eq_refl)
    as [_ [_ [Hone _]]].
  apply (Hone "hello world"). reflexivity.
Defined.

(** ** Decoders of the structured types *)

Lemma for_each_ok_iff {A B} (f : A -> result B) (l : list A) :
  (exists ys, for_each f l = Ok ys) <->
  List.Forall (fun x => exists y, f x = Ok y) l.
Proof.
  induction l as [|x l IH]; cbn [for_each].
  - split; [constructor | intros _; exists []; reflexivity].
  - split.
    + intros [ys H]. destruct (f x) as [y|] eqn:E; [|discriminate].
      cbn [mbind result_bind] in H.
      destruct (for_each f l) as [ys'|]; [|discriminate].
      constructor; [exists y; exact E | apply IH; exists ys'; reflexivity].
    + intros H. inversion H as [|? ? [y Hy] Hl]; subst.
      apply IH in Hl. destruct Hl as [ys Hys]. exists (y :: ys).
      rewrite Hy. cbn [mbind result_bind]. rewrite Hys. reflexivity.
Qed.

(** Splitting every entry and then reading the fields of each succeeds
    exactly when it succeeds on each entry, and gives one value per
    entry. *)
Lemma decode_entries (fields : list string -> result (gmap string string))
    (rr : list string) :
  ((exists d,
      (vs ← split_all rr; ds ← for_each fields vs;
       Ok ({[ "values" := DFieldsList ds ]} : gmap string dval)) = Ok d) <->
   List.Forall (fun g => exists ts, shlex_split g = Ok ts /\
                                    exists y, fields ts = Ok y) rr) /\
  (forall d,
      (vs ← split_all rr; ds ← for_each fields vs;
       Ok ({[ "values" := DFieldsList ds ]} : gmap string dval)) = Ok d ->
      exists ds, d = {[ "values" := DFieldsList ds ]} /\
                 length ds = length rr).
Proof.
  unfold split_all. split; [split|].
  - intros [d H].
    destruct (for_each shlex_split rr) as [vs|] eqn:Es; [|discriminate].
    cbn [mbind result_bind] in H.
    destruct (for_each fields vs) as [ds|] eqn:Ef; [|discriminate].
    clear H d. revert vs ds Es Ef.
    induction rr as [|g rr IH]; intros vs ds Es Ef; [constructor|].
    cbn [for_each] in Es.
    destruct (shlex_split g) as [ts|] eqn:Eg; [|discriminate].
    cbn [mbind result_bind] in Es.
    destruct (for_each shlex_split rr) as [vs'|] eqn:Es'; [|discriminate].
    cbn [mbind result_bind] in Es. injection Es as <-.
    cbn [for_each] in Ef.
    destruct (fields ts) as [y|] eqn:Ey; [|discriminate].
    cbn [mbind result_bind] in Ef.
    destruct (for_each fields vs') as [ds'|] eqn:Ef'; [|discriminate].
    constructor.
    + exists ts. split; [exact Eg | exists y; exact Ey].
    + apply (IH vs' ds' eq_refl Ef').
  - induction rr as [|g rr IH]; intros H.
    + eexists. reflexivity.
    + inversion H as [|? ? [ts [Hts [y Hy]]] Hrr]; subst.
      destruct (IH Hrr) as [d Hd]. cbn [for_each]. rewrite Hts.
      cbn [mbind result_bind].
      destruct (for_each shlex_split rr) as [vs|]; [|discriminate].
      cbn [mbind result_bind for_each] in *. rewrite Hy.
      cbn [mbind result_bind].
      destruct (for_each fields vs) as [ds|]; [|discriminate].
      eexists. reflexivity.
  - intros d H.
    destruct (for_each shlex_split rr) as [vs|] eqn:Es; [|discriminate].
    cbn [mbind result_bind] in H.
    destruct (for_each fields vs) as [ds|] eqn:Ef; [|discriminate].
    cbn [mbind result_bind] in H. injection H as <-.
    exists ds. split; [reflexivity|].
    rewrite (for_each_length _ _ _ Ef). apply (for_each_length _ _ _ Es).
Qed.

Lemma fields_CAA_ok (ts : list string) :
  (exists y, fields_CAA ts = Ok y) <-> (3 <= length ts)%nat.
Proof.
  destruct ts as [|a [|b [|c ts]]]; cbn; split;
    try (intros [y H]; discriminate); try lia; intros _; eexists; reflexivity.
Qed.

Lemma fields_MX_ok (ts : list string) :
  (exists y, fields_MX ts = Ok y) <-> (2 <= length ts)%nat.
Proof.
  destruct ts as [|a [|b ts]]; cbn; split;
    try (intros [y H]; discriminate); try lia; intros _; eexists; reflexivity.
Qed.

Lemma fields_SRV_ok (ts : list string) :
  (exists y, fields_SRV ts = Ok y) <-> (4 <= length ts)%nat.
Proof.
  destruct ts as [|a [|b [|c [|d ts]]]]; cbn; split;
    try (intros [y H]; discriminate); try lia; intros _; eexists; reflexivity.
Qed.

Lemma fields_NAPTR_ok (ts : list string) :
  (exists y, fields_NAPTR ts = Ok y) <-> (6 <= length ts)%nat.
Proof.
  destruct ts as [|a [|b [|c [|d [|e [|f ts]]]]]]; cbn; split;
    try (intros [y H]; discriminate); try lia; intros _; eexists; reflexivity.
Qed.

Lemma splits_into_fields (fields : list string -> result (gmap string string))
    (n : nat) (rr : list string) :
  (forall ts, (exists y, fields ts = Ok y) <-> (n <= length ts)%nat) ->
  List.Forall (fun g => exists ts, shlex_split g = Ok ts /\
                                   exists y, fields ts = Ok y) rr <->
  List.Forall (splits_into n) rr.
Proof.
  intros Hf. split; apply List.Forall_impl; intros g [ts [Hts H]];
    exists ts; (split; [exact Hts | apply Hf; exact H]).
Qed.

(** X28: the decoders of CAA, MX, NAPTR and SRV return data exactly when
    every rrdata entry splits, by shell rules, into at least 3, 2, 6 and 4
    tokens respectively (further tokens are ignored; an entry with fewer
    tokens or an unclosed quote makes the decoder raise); the data is then
    a 'values' list with one value per rrdata entry. *)
Theorem structured_decoders_defined (rs : ResourceRecordSet) :
  ((exists d, _data_for_CAA rs = Ok d) <->
   List.Forall (splits_into 3) (rrdatas rs)) /\
  ((exists d, _data_for_MX rs = Ok d) <->
   List.Forall (splits_into 2) (rrdatas rs)) /\
  ((exists d, _data_for_NAPTR rs = Ok d) <->
   List.Forall (splits_into 6) (rrdatas rs)) /\
  ((exists d, _data_for_SRV rs = Ok d) <->
   List.Forall (splits_into 4) (rrdatas rs)) /\
  (forall data_for d,
     In data_for [_data_for_CAA; _data_for_MX; _data_for_NAPTR;
                  _data_for_SRV] ->
     data_for rs = Ok d ->
     exists ds, d = {[ "values" := DFieldsList ds ]} /\
                length ds = length (rrdatas rs)).
Proof.
  split; [|split; [|split; [|split]]].
  - rewrite <- (splits_into_fields fields_CAA 3 _ fields_CAA_ok).
    apply (decode_entries fields_CAA).
  - rewrite <- (splits_into_fields fields_MX 2 _ fields_MX_ok).
    apply (decode_entries fields_MX).
  - rewrite <- (splits_into_fields fields_NAPTR 6 _ fields_NAPTR_ok).
    apply (decode_entries fields_NAPTR).
  - rewrite <- (splits_into_fields fields_SRV 4 _ fields_SRV_ok).
    apply (decode_entries fields_SRV).
  - intros data_for d [<- | [<- | [<- | [<- | []]]]] H.
    + apply (proj2 (decode_entries fields_CAA (rrdatas rs)) d H).
    + apply (proj2 (decode_entries fields_MX (rrdatas rs)) d H).
    + apply (proj2 (decode_entries fields_NAPTR (rrdatas rs)) d H).
    + apply (proj2 (decode_entries fields_SRV (rrdatas rs)) d H).
Qed.

Example mx_one_token_raises :
  _data_for_MX {| rs_name := "example.com."; record_type := "MX";
                  rs_ttl := 300; rrdatas := ["10"] |}
  = Raise IndexError.
Proof. reflexivity. Qed.

Example mx_extra_tokens_ignored :
  _data_for_MX {| rs_name := "example.com."; record_type := "MX";
                  rs_ttl := 300; rrdatas := ["10 mail.example.com. extra"] |}
  = Ok {[ "values" := DFieldsList [<["preference" := "10"]>
                                     {[ "exchange" := "mail.example.com." ]}] ]}.
Proof. vm_compute. reflexivity. Qed.

Example mx_unclosed_quote_raises :
  _data_for_MX {| rs_name := "example.com."; record_type := "MX";
                  rs_ttl := 300; rrdatas := ["10 'mail.example.com."] |}
  = Raise ValueError.
Proof. reflexivity. Qed.

(** ** CAA, what does come back *)

Lemma shlex_split_three (a b c : string) :
  plain_token a -> plain_token b -> plain_token c ->
  shlex_split (a +:+ sp +:+ b +:+ sp +:+ c) = Ok [a; b; c].
Proof.
  intros Ha Hb Hc. unfold shlex_split. rewrite !chars_app.
  apply (lex_joined [a; b; c] []).
  repeat (apply List.Forall_cons; [assumption|]). apply List.Forall_nil.
Qed.

(** X29: for a CAA record whose data holds, under 'value', the fields
    flags, tag and value, all non-empty and free of blanks, quotes and
    backslashes, decoding what was encoded gives the same fields back, as
    the one entry of a 'values' list. *)
Theorem caa_fields_come_back (gcloud_zone : ManagedZone) (r : DnsRecord)
    (flags tag v : string) :
  _type r = "CAA" ->
  data r !! "value" = Some (DFields (caa_value flags tag v)) ->
  plain_token flags -> plain_token tag -> plain_token v ->
  (rs ← _record_to_record_set gcloud_zone r; decode rs)
  = Ok {[ "values" := DFieldsList [caa_value flags tag v] ]}.
Proof.
  intros Ht Hd Hf Htag Hv. unfold _record_to_record_set. rewrite Ht.
  cbn [getattr record_set_methods String.eqb Ascii.eqb Bool.eqb
       mbind result_bind].
  unfold _record_set_from_CAA, item. rewrite Hd.
  cbn [mbind result_bind].
  change (format_CAA (caa_value flags tag v))
    with (Ok (flags +:+ sp +:+ tag +:+ sp +:+ v) : result string).
  cbn [mbind result_bind]. unfold decode, resource_record_set.
  cbn [record_type]. rewrite Ht.
  change (getattr data_methods (upper "CAA")) with (Ok _data_for_CAA).
  cbn [mbind result_bind]. unfold _data_for_CAA, split_all.
  cbn [rrdatas for_each].
  rewrite (shlex_split_three flags tag v Hf Htag Hv). reflexivity.
Qed.

Lemma caa_fields_come_back_witness :
  (rs ← _record_to_record_set example_zone caa_record; decode rs)
  = Ok {[ "values" := DFieldsList [caa_value "0" "issue" "ca.example.net"] ]}.
Proof.
  apply (caa_fields_come_back example_zone caa_record
           "0" "issue" "ca.example.net");
    try reflexivity;
    apply plain_token_check; (discriminate || reflexivity).
Defined.
